(** * demo_graph.py: the choropleth map pipeline

  A shallow embedding of [src/demo_graph.py]: the label index
  ([extract_variable_labels]), the colour scale ([create_colormap]), the
  popup markup ([create_html_content]), the per-feature style
  ([style_function]), the map assembly loop ([generate_map]) and the
  guard in [main].

  Conventions of the embedding.
  - A Python [str] is a [string]; every character stands for one code
    point below 256.
  - A metric cell is a [num]: a number or pandas' missing marker NaN.
    Numbers are census head counts: [Num z] is the numpy scalar whose
    value is the integer [z].  Comparisons are exact; the two arithmetic
    steps of the source, [min_val - 1] and [max_val + 1], are computed as
    numpy computes them in the column's dtype: rounded to the nearest
    float64, or wrapped around as int64.
  - The table is a [GeoDataFrame]: rows with the four columns the source
    addresses by label ([NAME], [geometry], [Female_BarChart],
    [Male_BarChart]) and one numeric column per metric code, float64
    unless the table lists it as int64; a row that holds no entry for a
    column reads as NaN there.
  - The table is the state of a small state-and-exception monad [M]: every
    pandas call of the source is an operation of [M], so that what a call
    leaves in the table is part of its result.
  - The folium map [m] is a value threaded through [generate_map];
    [add_to] appends a child, as folium does.
  - Shapely geometries, branca's colour interpolation and what pandas and
    Python make of a column of objects are not part of the repository;
    they are variables of the section. *)

From Stdlib Require QArith_base.
From Stdlib Require Import Ascii.
From stdpp Require Import gmap strings list fin_maps.

Local Open Scope string_scope.
Local Open Scope Z_scope.

(** ** Python strings *)

Module PyStr.

(** [str.isspace] on the code points below 256. *)
Definition isspace (c : ascii) : bool :=
  let n := nat_of_ascii c in
  ((9 <=? n)%nat && (n <=? 13)%nat)
  || ((28 <=? n)%nat && (n <=? 32)%nat)
  || (n =? 133)%nat || (n =? 160)%nat.

(** [s.partition(sep)] for a one-character separator: the text before the
    first separator and the text after it, when there is one. *)
Fixpoint partition (sep : ascii) (s : string) : option (string * string) :=
  match s with
  | "" => None
  | String c s' =>
      if Ascii.eqb c sep then Some ("", s')
      else match partition sep s' with
           | Some (before, after) => Some (String c before, after)
           | None => None
           end
  end.

(** [s.split(sep, maxsplit)]: cut at the separator from the left, at most
    [maxsplit] times. *)
Fixpoint split (sep : ascii) (maxsplit : nat) (s : string) : list string :=
  match maxsplit with
  | O => [s]
  | S k =>
      match partition sep s with
      | None => [s]
      | Some (before, after) => before :: split sep k after
      end
  end.

Fixpoint lstrip (s : string) : string :=
  match s with
  | "" => ""
  | String c s' => if isspace c then lstrip s' else s
  end.

Fixpoint rstrip (s : string) : string :=
  match s with
  | "" => ""
  | String c s' =>
      match rstrip s' with
      | "" => if isspace c then "" else String c ""
      | kept => String c kept
      end
  end.

(** [s.strip()] *)
Definition strip (s : string) : string := rstrip (lstrip s).

(** [s.startswith(p)] *)
Definition startswith (p s : string) : bool := String.prefix p s.

(** Words used to state properties of the functions above. *)
Fixpoint all_space (s : string) : Prop :=
  match s with
  | "" => True
  | String c s' => isspace c = true ∧ all_space s'
  end.

Fixpoint occurs (sep : ascii) (s : string) : nat :=
  match s with
  | "" => O
  | String c s' => ((if Ascii.eqb c sep then 1 else 0) + occurs sep s')%nat
  end.

Definition head_not_space (s : string) : Prop :=
  match s with
  | "" => True
  | String c _ => isspace c = false
  end.

Fixpoint last_not_space (s : string) : Prop :=
  match s with
  | "" => True
  | String c "" => isspace c = false
  | String _ s' => last_not_space s'
  end.

(** [t] occurs in [s]. *)
Definition contains (s t : string) : Prop :=
  ∃ before after, s = before +:+ t +:+ after.

Definition dq : string := String "034"%char "".
Definition nl : string := String "010"%char "".

End PyStr.

(** ** Values *)

(** A float cell: a number, or NaN for a missing value. *)
Inductive num : Type :=
| NaN
| Num (z : Z).

(** A chart payload: [None], the NaN placeholder, or base64 text. *)
Inductive payload : Type :=
| ImgNone
| ImgNaN
| ImgStr (data : string).

(** Exceptions the pipeline can end with.  [StopException] is
  [st.error(message)] followed by [st.stop()]. *)
Inductive exn : Type :=
| KeyError (key : string)
| TypeError (what : string)
| ValueError (what : string)
| StopException (message : string).

(** [float == float]: NaN equals nothing, not even itself. *)
Definition num_eqb (x y : num) : bool :=
match x, y with
| Num a, Num b => a =? b
| _, _ => false
end.

(** The dtype of a numeric column. *)
Inductive dtype : Type :=
| float64
| int64.

(** The float64 nearest to an integer: the integer itself while 53 bits
  hold it, otherwise the multiple of the unit in the last place that is
  nearest, the one with an even significand when two are equally near. *)
Definition f64_round (z : Z) : Z :=
let a := Z.abs z in
let ulp := 2 ^ Z.max 0 (Z.log2 a - 52) in
let q := a / ulp in
let r := a mod ulp in
let q' :=
  if 2 * r <? ulp then q
  else if ulp <? 2 * r then q + 1
  else if Z.even q then q else q + 1 in
Z.sgn z * (q' * ulp).

(** An int64 result wraps around. *)
Definition wrap64 (z : Z) : Z := (z + 2 ^ 63) mod 2 ^ 64 - 2 ^ 63.

(** What numpy returns for an exact result [z] in a dtype. *)
Definition np_result (d : dtype) (z : Z) : Z :=
match d with
| float64 => f64_round z
| int64 => wrap64 z
end.

(** [x + k] and [x - k] on a numpy scalar of dtype [d]. *)
Definition num_add (d : dtype) (x : num) (k : Z) : num :=
match x with
| Num a => Num (np_result d (a + k))
| NaN => NaN
end.

Definition num_sub (d : dtype) (x : num) (k : Z) : num :=
match x with
| Num a => Num (np_result d (a - k))
| NaN => NaN
end.

(** The present values of a column, in order ([skipna=True]). *)
Definition dropna (column : list num) : list Z :=
omap (λ x, match x with Num z => Some z | NaN => None end) column.

(** [Series.min()] and [Series.max()]: over the present values; NaN when
  there is none. *)
Definition Series_min (column : list num) : num :=
match dropna column with
| [] => NaN
| z :: zs => Num (foldl Z.min z zs)
end.

Definition Series_max (column : list num) : num :=
match dropna column with
| [] => NaN
| z :: zs => Num (foldl Z.max z zs)
end.

(** What an f-string writes for a payload. *)
Definition format_payload (img : payload) : string :=
match img with
| ImgNone => "None"
| ImgNaN => "nan"
| ImgStr data => data
end.

(** [x is None] *)
Definition is_None (img : payload) : bool :=
match img with
| ImgNone => true
| _ => false
end.

(** ** branca and folium objects *)

(** A [branca.colormap.LinearColormap]: its domain and its caption. *)
Record LinearColormap : Type := mkColormap {
vmin : num;
vmax : num;
caption : string
}.

(** [cm.linear.OrRd_09.scale(vmin, vmax)] *)
Definition OrRd_09_scale (lo hi : num) : LinearColormap :=
{| vmin := lo; vmax := hi; caption := "" |}.

Definition set_caption (c : LinearColormap) (text : string) : LinearColormap :=
{| vmin := vmin c; vmax := vmax c; caption := text |}.

(** The dict a style function returns. *)
Record Style : Type := mkStyle {
fillColor : string;
color : string;
weight : QArith_base.Q;
fillOpacity : QArith_base.Q
}.

(** The dict the highlight function returns. *)
Record Highlight : Type := mkHighlight {
hl_weight : Z;
hl_color : string
}.

(** [folium.IFrame(html, width, height)] inside
  [folium.Popup(iframe, max_width)]. *)
Record Popup : Type := mkPopup {
html : string;
iframe_width : Z;
iframe_height : Z;
max_width : Z
}.

Section Pipeline.

(** Shapely's geometry objects and their [__geo_interface__]. *)
Context {Geometry GeoInterface : Type}.
Variable geo_interface : Geometry → GeoInterface.

(** ** The table *)

(** A value held by a row or by a property dict. *)
Inductive pyval : Type :=
| PyNone
| PyFloat (x : num)
| PyStr (s : string)
| PyGeom (g : Geometry).

(** One row of the table. *)
Record Row : Type := mkRow {
  NAME : string;
  geometry : option Geometry;
  Female_BarChart : payload;
  Male_BarChart : payload;
  metrics : gmap string num
}.

(** The table: its numeric columns, those among them whose dtype is int64
  (the others are float64), and its rows. *)
Record GeoDataFrame : Type := mkFrame {
  metric_columns : gset string;
  int64_columns : gset string;
  rows : list Row
}.

Definition object_columns : list string :=
  ["NAME"; "geometry"; "Female_BarChart"; "Male_BarChart"].

Definition payload_value (img : payload) : pyval :=
  match img with
  | ImgNone => PyNone
  | ImgNaN => PyFloat NaN
  | ImgStr data => PyStr data
  end.

(** The row as a labelled Series. *)
Definition Row_series (row : Row) : gmap string pyval :=
  <["NAME" := PyStr (NAME row)]>
    (<["geometry" := from_option PyGeom PyNone (geometry row)]>
       (<["Female_BarChart" := payload_value (Female_BarChart row)]>
          (<["Male_BarChart" := payload_value (Male_BarChart row)]>
             (PyFloat <$> metrics row)))).

(** [series.drop(labels)]: a new Series without the labels. *)
Definition Series_drop (labels : list string) (series : gmap string pyval)
  : gmap string pyval :=
  foldr delete series labels.

(** [series.to_dict()] *)
Definition Series_to_dict (series : gmap string pyval) : gmap string pyval :=
  series.

(** [pd.isna(val)] *)
Definition pd_isna (val : pyval) : bool :=
  match val with
  | PyNone => true
  | PyFloat NaN => true
  | _ => false
  end.

(** ** The monad: the table as state, exceptions as results *)

Definition M (A : Type) : Type := GeoDataFrame → (exn + A) * GeoDataFrame.

Definition ret {A} (a : A) : M A := λ gdf, (inr a, gdf).

Definition raise {A} (e : exn) : M A := λ gdf, (inl e, gdf).

Definition bind {A B} (c : M A) (k : A → M B) : M B :=
  λ gdf,
    match c gdf with
    | (inr a, gdf') => k a gdf'
    | (inl e, gdf') => (inl e, gdf')
    end.

Notation "x <- c ;; k" := (bind c (λ x, k))
  (at level 100, c at next level, right associativity).

(** The result of a computation and the table it leaves. *)
Definition result_of {A} (c : M A) (gdf : GeoDataFrame) : exn + A := fst (c gdf).
Definition table_after {A} (c : M A) (gdf : GeoDataFrame) : GeoDataFrame := snd (c gdf).

(** The column labels of a table, and the cells of one float column. *)
Definition frame_columns (gdf : GeoDataFrame) : list string :=
  (object_columns ++ elements (metric_columns gdf))%list.

Definition column_values (key : string) (gdf : GeoDataFrame) : list num :=
  (λ row, default NaN (metrics row !! key)) <$> rows gdf.

(** [gdf.columns] *)
Definition DataFrame_columns : M (list string) :=
  λ gdf, (inr (frame_columns gdf), gdf).

(** A column taken out of the table: numeric cells with their dtype, or
  the objects of one of the four object columns. *)
Inductive Series : Type :=
| NumSeries (d : dtype) (cells : list num)
| ObjectSeries (cells : list pyval).

Definition column_dtype (key : string) (gdf : GeoDataFrame) : dtype :=
  if decide (key ∈ int64_columns gdf) then int64 else float64.

Definition object_values (key : string) (gdf : GeoDataFrame) : list pyval :=
  (λ row, default PyNone (Row_series row !! key)) <$> rows gdf.

(** [gdf[key]]: the column under the label, or [KeyError] when the table
  has no such column. *)
Definition DataFrame_getitem (key : string) : M Series :=
  λ gdf,
    if decide (key ∈ metric_columns gdf)
    then (inr (NumSeries (column_dtype key gdf) (column_values key gdf)), gdf)
    else if decide (key ∈ object_columns)
    then (inr (ObjectSeries (object_values key gdf)), gdf)
    else (inl (KeyError key), gdf).

(** What [.min()] and [.max()] return: a numpy scalar of the column's
  dtype, or whatever pandas makes of a column of objects. *)
Inductive scalar : Type :=
| NumScalar (d : dtype) (x : num)
| ObjScalar (cells : list pyval).

Definition column_min (column : Series) : scalar :=
  match column with
  | NumSeries d cells => NumScalar d (Series_min cells)
  | ObjectSeries cells => ObjScalar cells
  end.

Definition column_max (column : Series) : scalar :=
  match column with
  | NumSeries d cells => NumScalar d (Series_max cells)
  | ObjectSeries cells => ObjScalar cells
  end.

(** An outcome of a library call as a computation. *)
Definition lift {A} (r : exn + A) : M A := λ gdf, (r, gdf).

(** [gdf.iterrows()]: the pairs of a position and a copy of the row. *)
Definition DataFrame_iterrows : M (list (nat * Row)) :=
  λ gdf, (inr (imap pair (rows gdf)), gdf).

(** ** extract_variable_labels *)

Definition column_label (col : string) : string :=
  let parts := PyStr.split "_" 2 col in
  if (length parts =? 3)%nat then PyStr.strip (nth 2 parts "") else col.

Definition extract_variable_labels : M (gmap string string) :=
  columns <- DataFrame_columns ;;
  ret (foldl (λ variable_labels col,
                if PyStr.startswith "P12_" col
                then <[col := column_label col]> variable_labels
                else variable_labels)
             ∅ columns).

(** ** create_colormap *)

(** What lines 70 to 81 give on a column of objects: pandas' reductions
  over the objects, Python's comparison and arithmetic on what they return
  and branca's [scale] decide between an exception and the domain of the
  scale that is built.  None of it is code of the repository. *)
Variable object_scale : list pyval → exn + (num * num).

Definition create_colormap (variable : string) (variable_labels : gmap string string)
  : M LinearColormap :=
  column <- DataFrame_getitem variable ;;
  let min_val := column_min column in
  column <- DataFrame_getitem variable ;;
  let max_val := column_max column in
  match min_val, max_val with
  | NumScalar d min_val, NumScalar _ max_val =>
      let '(min_val, max_val) :=
        if num_eqb min_val max_val
        then (num_sub d min_val 1, num_add d max_val 1)
        else (min_val, max_val) in
      let colormap := OrRd_09_scale min_val max_val in
      ret (set_caption colormap
             ("Demographic Metric: " +:+ default variable (variable_labels !! variable)))
  | ObjScalar cells, _ | _, ObjScalar cells =>
      domain <- lift (object_scale cells) ;;
      let colormap := OrRd_09_scale (fst domain) (snd domain) in
      ret (set_caption colormap
             ("Demographic Metric: " +:+ default variable (variable_labels !! variable)))
  end.

(** ** create_html_content *)

Definition indent (n : nat) : string := String.concat "" (replicate n " ").

(** One line of the markup: its indentation, its text, a newline. *)
Definition line (n : nat) (text : string) : string :=
  indent n +:+ text +:+ PyStr.nl.

Definition quoted (text : string) : string := PyStr.dq +:+ text +:+ PyStr.dq.

Definition img_tag (img : payload) : string :=
  "<img src=" +:+ quoted ("data:image/png;base64," +:+ format_payload img)
  +:+ " style=" +:+ quoted "width: 280px; height: 150px;" +:+ ">".

Definition no_data_panel (district_name : string) : string :=
  PyStr.nl
  +:+ line 12 ("<div style=" +:+ quoted "width: 300px;" +:+ ">")
  +:+ line 16 ("<h4>" +:+ district_name +:+ "</h4>")
  +:+ line 16 "<p>No data available for bar charts.</p>"
  +:+ line 12 "</div>"
  +:+ indent 12.

Definition charts_panel (district_name : string) (female_img male_img : payload) : string :=
  PyStr.nl
  +:+ line 12 ("<div style=" +:+ quoted "width: 300px;" +:+ ">")
  +:+ line 16 ("<h4>" +:+ district_name +:+ "</h4>")
  +:+ line 16 ("<div style="
               +:+ quoted "display: flex; flex-direction: column; gap: 10px;" +:+ ">")
  +:+ line 20 "<div>"
  +:+ line 24 "<h5>Female Age Data</h5>"
  +:+ line 24 (img_tag female_img)
  +:+ line 20 "</div>"
  +:+ line 20 "<div>"
  +:+ line 24 "<h5>Male Age Data</h5>"
  +:+ line 24 (img_tag male_img)
  +:+ line 20 "</div>"
  +:+ line 16 "</div>"
  +:+ line 12 "</div>"
  +:+ indent 12.

Definition create_html_content (row : Row) : string :=
  let female_img := Female_BarChart row in
  let male_img := Male_BarChart row in
  let district_name := NAME row in
  if is_None female_img || is_None male_img
  then no_data_panel district_name
  else charts_panel district_name female_img male_img.

(** ** style_function *)

(** branca's [colormap(val)]: the colour it returns or the exception it
    raises. *)
Variable colormap_call : LinearColormap → pyval → exn + string.

Record Feature : Type := mkFeature {
  feature_type : string;
  properties : gmap string pyval;
  feature_geometry : GeoInterface
}.

Definition style_function (colormap : LinearColormap) (variable : string)
  (feature : Feature) : exn + Style :=
  let val := default PyNone (properties feature !! variable) in
  let fill :=
    if pd_isna val then inr "grey" else colormap_call colormap val in
  match fill with
  | inr colour =>
      inr {| fillColor := colour;
             color := "black";
             weight := QArith_base.Qmake 1 2;
             fillOpacity := QArith_base.Qmake 7 10 |}
  | inl e => inl e
  end.

(** ** generate_map *)

(** A [folium.GeoJson] layer with what the loop hands to it. *)
Record GeoJson : Type := mkGeoJson {
  data : Feature;
  layer_style_function : Feature → exn + Style;
  highlight_function : Feature → Highlight;
  tooltip : string;
  popup : Popup
}.

Inductive Child : Type :=
| TileLayerChild (tiles : string)
| ColormapChild (colormap : LinearColormap)
| GeoJsonChild (layer : GeoJson)
| LayerControl.

Record FoliumMap : Type := mkMap {
  location : QArith_base.Q * QArith_base.Q;
  zoom_start : Z;
  children : list Child
}.

(** [folium.Map(location=[37.8, -96], zoom_start=4)]: the map is created
  with its default tile layer, [tiles='OpenStreetMap'], as first child. *)
Definition folium_Map : FoliumMap :=
  {| location := (QArith_base.Qmake 378 10, QArith_base.Qmake (-96) 1);
     zoom_start := 4;
     children := [TileLayerChild "OpenStreetMap"] |}.

(** [child.add_to(m)] *)
Definition add_to (child : Child) (m : FoliumMap) : FoliumMap :=
  {| location := location m;
     zoom_start := zoom_start m;
     children := (children m ++ [child])%list |}.

(** The layer built for a row that has a geometry. *)
Definition row_layer (colormap : LinearColormap) (variable : string)
  (row : Row) (geom : Geometry) : GeoJson :=
  let html_content := create_html_content row in
  let popup :=
    {| html := html_content; iframe_width := 320; iframe_height := 400;
       max_width := 320 |} in
  let properties :=
    Series_to_dict
      (Series_drop ["geometry"; "Female_BarChart"; "Male_BarChart"] (Row_series row)) in
  let feature :=
    {| feature_type := "Feature";
       properties := properties;
       feature_geometry := geo_interface geom |} in
  {| data := feature;
     layer_style_function := style_function colormap variable;
     highlight_function := λ _, {| hl_weight := 3; hl_color := "blue" |};
     tooltip := NAME row;
     popup := popup |}.

(** One turn of the loop over [gdf.iterrows()]. *)
Definition loop_body (colormap : LinearColormap) (variable : string)
  (m : FoliumMap) (item : nat * Row) : FoliumMap :=
  let row := snd item in
  match geometry row with
  | None => m
  | Some geom => add_to (GeoJsonChild (row_layer colormap variable row geom)) m
  end.

Definition generate_map (variable : string) (variable_labels : gmap string string)
  : M FoliumMap :=
  let m := folium_Map in
  colormap <- create_colormap variable variable_labels ;;
  let m := add_to (ColormapChild colormap) m in
  items <- DataFrame_iterrows ;;
  let m := foldl (loop_body colormap variable) m items in
  let m := add_to LayerControl m in
  ret m.

(** ** main *)

Definition PRESET_VARIABLE : string := "P12_027N".

(** [main] after [load_data()]: the map handed to [folium_static], or the
    message shown before [st.stop()]. *)
Definition main : M FoliumMap :=
  columns <- DataFrame_columns ;;
  let demographic_vars := filter (λ col, PyStr.startswith "P12_" col = true) columns in
  variable_labels <- extract_variable_labels ;;
  columns <- DataFrame_columns ;;
  if negb (bool_decide (PRESET_VARIABLE ∈ columns))
  then raise (StopException
                ("Preset variable '" +:+ PRESET_VARIABLE +:+ "' not found in the data."))
  else
    let preset_label := default PRESET_VARIABLE (variable_labels !! PRESET_VARIABLE) in
    generate_map PRESET_VARIABLE variable_labels.

(** ** What a finished map shows *)

Definition geojson_layers (m : FoliumMap) : list GeoJson :=
  omap (λ child, match child with GeoJsonChild layer => Some layer | _ => None end)
       (children m).

Definition legends (m : FoliumMap) : list LinearColormap :=
  omap (λ child, match child with ColormapChild c => Some c | _ => None end)
       (children m).

(** The style folium draws a layer with: its style function at its own
    feature. *)
Definition layer_style (layer : GeoJson) : exn + Style :=
  layer_style_function layer (data layer).

Definition layer_fill (layer : GeoJson) : exn + string :=
  match layer_style layer with
  | inr style => inr (fillColor style)
  | inl e => inl e
  end.

Definition legend_domain (c : LinearColormap) : num * num := (vmin c, vmax c).

Definition has_geometry (row : Row) : bool :=
  match geometry row with
  | Some _ => true
  | None => false
  end.

(** A computation that leaves every table as it found it. *)
Definition read_only {A} (c : M A) : Prop :=
  ∀ gdf, table_after c gdf = gdf.

(** Words used to state properties of the scale: the rows in which the
  metric has a value, and the table made of these rows alone. *)
Definition has_value (variable : string) (row : Row) : bool :=
  match metrics row !! variable with
  | Some (Num _) => true
  | _ => false
  end.

Definition with_values_only (variable : string) (gdf : GeoDataFrame) : GeoDataFrame :=
  {| metric_columns := metric_columns gdf;
     int64_columns := int64_columns gdf;
     rows := filter (λ row, has_value variable row) (rows gdf) |}.

End Pipeline.

(** ** Sample tables

  Geometries are stood for by numbers; the colour scale answers numbers
  with a colour that names the value's place in the domain and refuses
  everything else. *)

Module Sample.

Definition geo (n : nat) : string := "polygon".

Definition colour_of (c : LinearColormap) (val : pyval (Geometry := nat)) : exn + string :=
  match val, vmin c, vmax c with
  | PyFloat (Num z), Num lo, Num hi =>
      if z <=? lo then inr "#fff7ec"
      else if hi <=? z then inr "#7f0000"
      else inr "#fc8d59"
  | PyFloat (Num _), _, _ => inl (ValueError "Thresholds are not sorted.")
  | _, _, _ => inl (TypeError "not a number")
  end.

(** Columns of objects are refused. *)
Definition objects (cells : list (pyval (Geometry := nat))) : exn + (num * num) :=
  inl (TypeError "not a number").

Definition code : string := "P12_027N".
Definition labelled : string := "P12_001N_ Total Population ".

Definition region (name : string) (geom : option nat) (female male : payload)
  (value : num) : Row :=
  {| NAME := name; geometry := geom; Female_BarChart := female;
     Male_BarChart := male;
     metrics := {[ code := value; labelled := value ]} |}.

Definition table (rs : list (Row (Geometry := nat))) : GeoDataFrame :=
  {| metric_columns := {[ code; labelled ]}; int64_columns := ∅; rows := rs |}.

Definition A : Row := region "A" (Some 1%nat) (ImgStr "QUJD") (ImgStr "REVG") (Num 10).
Definition B : Row := region "B" (Some 2%nat) (ImgStr "QUJD") (ImgStr "REVG") (Num 20).
Definition C : Row := region "C" (Some 3%nat) (ImgStr "QUJD") (ImgStr "REVG") (Num 30).
Definition B_missing : Row := region "B" (Some 2%nat) (ImgStr "QUJD") ImgNone NaN.
Definition B_hidden : Row := region "B" None (ImgStr "QUJD") (ImgStr "REVG") (Num 20).

Definition abc : GeoDataFrame := table [A; B; C].
Definition a_c : GeoDataFrame := table [A; C].
Definition with_missing : GeoDataFrame := table [A; B_missing; C].
Definition with_hidden : GeoDataFrame := table [A; B_hidden; C].
Definition constant : GeoDataFrame :=
  table [region "A" (Some 1%nat) ImgNone ImgNone (Num 42);
         region "B" (Some 2%nat) ImgNone ImgNone (Num 42)].

(** A table without the preset metric. *)
Definition other_metric : GeoDataFrame :=
  {| metric_columns := {[ labelled ]}; int64_columns := ∅; rows := [A] |}.

End Sample.


(** ** Loading the table *)

(** What a library call made by [load_data] can raise: [FileNotFoundError],
  or another [Exception], whose text is what [str(e)] gives. *)
Inductive load_exn : Type :=
| FileNotFoundError (text : string)
| OtherException (text : string).

Section Loading.

Context {Geometry GeoInterface : Type}.

(** The unpickled object, [pd.read_pickle(file_path)] and
  [gpd.GeoDataFrame(gdf, geometry='geometry')]: the file system and the
  libraries are not part of the repository. *)
Variable Pickled : Type.
Variable read_pickle : string → load_exn + Pickled.
Variable to_GeoDataFrame : Pickled → load_exn + GeoDataFrame (Geometry := Geometry).

(** [load_data(file_path)]: both calls stand in the [try]; either handler
  shows its message and stops the script.  The cache of [st.cache_data] is
  left out: the function returns what its body returns. *)
Definition load_data (file_path : string) : exn + GeoDataFrame (Geometry := Geometry) :=
  let attempt :=
    match read_pickle file_path with
    | inr gdf => to_GeoDataFrame gdf
    | inl e => inl e
    end in
  match attempt with
  | inr gdf => inr gdf
  | inl (FileNotFoundError _) =>
      inl (StopException ("Data file not found at path: " +:+ file_path))
  | inl (OtherException text) =>
      inl (StopException ("Failed to load data: " +:+ text))
  end.

Definition default_file_path : string := "merged_gdf_specific.pkl".

Variable geo_interface : Geometry → GeoInterface.
Variable object_scale : list (pyval (Geometry := Geometry)) → exn + (num * num).
Variable colormap_call : LinearColormap → pyval (Geometry := Geometry) → exn + string.

(** The whole of [main]: [load_data()] with its default path, then the rest
  of [main] on the table it returned. *)
Definition run_main : exn + FoliumMap (Geometry := Geometry) (GeoInterface := GeoInterface) :=
  match load_data default_file_path with
  | inr gdf => result_of (main geo_interface object_scale colormap_call) gdf
  | inl e => inl e
  end.

(** Words used to state properties: the same row without its geometry, and
  the table in which the rows chosen by [p] have lost theirs. *)
Definition without_geometry (row : Row (Geometry := Geometry))
  : Row (Geometry := Geometry) :=
  {| NAME := NAME row; geometry := None;
     Female_BarChart := Female_BarChart row;
     Male_BarChart := Male_BarChart row;
     metrics := metrics row |}.

Definition hide (p : Row (Geometry := Geometry) → bool)
  (gdf : GeoDataFrame (Geometry := Geometry)) : GeoDataFrame (Geometry := Geometry) :=
  {| metric_columns := metric_columns gdf;
     int64_columns := int64_columns gdf;
     rows := (λ row, if p row then without_geometry row else row) <$> rows gdf |}.

End Loading.

(** The fixed style of a feature without a value. *)
Definition grey_style : Style :=
  {| fillColor := "grey"; color := "black";
     weight := QArith_base.Qmake 1 2; fillOpacity := QArith_base.Qmake 7 10 |}.

Definition styled (fill : exn + string) : exn + Style :=
  match fill with
  | inr colour =>
      inr {| fillColor := colour; color := "black";
             weight := QArith_base.Qmake 1 2; fillOpacity := QArith_base.Qmake 7 10 |}
  | inl e => inl e
  end.

(** ** More sample tables *)

Module SampleEdge.

(** A table whose metric column holds no value at all. *)
Definition all_missing : GeoDataFrame :=
  Sample.table [Sample.region "A" (Some 1%nat) ImgNone ImgNone NaN;
                Sample.region "B" None ImgNone ImgNone NaN;
                Sample.region "C" (Some 3%nat) ImgNone ImgNone NaN].

(** A column whose third segment is blank. *)
Definition blank : string := "P12_002N_  ".

Definition blank_table : GeoDataFrame :=
  {| metric_columns := {[ blank ]};
     int64_columns := ∅;
     rows := [{| NAME := "A"; geometry := Some 1%nat; Female_BarChart := ImgNone;
                 Male_BarChart := ImgNone; metrics := {[ blank := Num 7 ]} |}] |}.

(** The file system: one readable pickle, the others missing. *)
Definition read (path : string) : load_exn + GeoDataFrame (Geometry := nat) :=
  if String.eqb path "merged_gdf_specific.pkl" then inr Sample.abc
  else inl (FileNotFoundError path).

Definition as_geo (gdf : GeoDataFrame (Geometry := nat)) : load_exn + GeoDataFrame :=
  inr gdf.

Definition hidden_B (row : Row (Geometry := nat)) : bool := String.eqb (NAME row) "B".

(** A float64 column that holds the same large count in every row, and an
  int64 column that does. *)
Definition huge_rows : list (Row (Geometry := nat)) :=
  [Sample.region "A" (Some 1%nat) ImgNone ImgNone (Num (10 ^ 16));
   Sample.region "B" (Some 2%nat) ImgNone ImgNone (Num (10 ^ 16))].


Definition huge_int64 : GeoDataFrame :=
  {| metric_columns := {[ Sample.code; Sample.labelled ]};
     int64_columns := {[ Sample.code ]};
     rows := huge_rows |}.

End SampleEdge.

(** * Properties *)

(** ** Strings *)

Module PyStrFacts.
Import PyStr.

#[local] Arguments String.append !_ _ / : simpl nomatch.

Lemma append_assoc (a b c : string) : (a +:+ b) +:+ c = a +:+ (b +:+ c).
Proof. induction a as [|ch a IH]; simpl; congruence. Qed.


Lemma occurs_append sep (a b : string) :
  occurs sep (a +:+ b) = (occurs sep a + occurs sep b)%nat.
Proof. induction a as [|ch a IH]; simpl; [done | lia]. Qed.

Lemma partition_found sep (a rest : string) :
  occurs sep a = 0%nat → partition sep (a +:+ String sep rest) = Some (a, rest).
Proof.
  induction a as [|ch a IH]; simpl.
  - by rewrite Ascii.eqb_refl.
  - destruct (Ascii.eqb ch sep); [done |]. intros H. by rewrite IH.
Qed.

Lemma partition_none sep (s : string) :
  occurs sep s = 0%nat → partition sep s = None.
Proof.
  induction s as [|ch s IH]; simpl; [done |].
  destruct (Ascii.eqb ch sep); [done |]. intros H. by rewrite IH.
Qed.

Lemma partition_Some_occurs sep (s before after : string) :
  partition sep s = Some (before, after) →
  occurs sep s = S (occurs sep after).
Proof.
  revert before. induction s as [|ch s IH]; simpl; [done |]. intros before.
  destruct (Ascii.eqb ch sep).
  - by intros [= _ ->].
  - destruct (partition sep s) as [[b a]|] eqn:E; [|done].
    intros [= _ <-]. by apply (IH b).
Qed.

(** The number of pieces: one more than the cuts made. *)
Lemma split_length sep (n : nat) (s : string) :
  length (split sep n s) = S (n `min` occurs sep s).
Proof.
  revert s. induction n as [|n IH]; intros s; simpl; [done |].
  destruct (partition sep s) as [[b a]|] eqn:E.
  - simpl. rewrite IH. apply partition_Some_occurs in E. rewrite E. lia.
  - destruct (occurs sep s) eqn:Eo; [done |].
    exfalso. clear IH. revert Eo E. induction s as [|ch s IHs]; simpl; [done |].
    destruct (Ascii.eqb ch sep); [done |].
    destruct (partition sep s) as [[b a]|]; [done |]. auto.
Qed.

(** A name of three segments splits into exactly these. *)
Lemma split_three sep (a b c : string) :
  occurs sep a = 0%nat → occurs sep b = 0%nat →
  split sep 2 (a +:+ String sep (b +:+ String sep c)) = [a; b; c].
Proof.
  intros Ha Hb. simpl. rewrite (partition_found _ _ _ Ha).
  by rewrite (partition_found _ _ _ Hb).
Qed.

Lemma lstrip_spec (s : string) :
  ∃ l, s = l +:+ lstrip s ∧ all_space l ∧ head_not_space (lstrip s).
Proof.
  induction s as [|ch s (l & Hs & Hl & Hh)]; simpl.
  - by exists "".
  - destruct (isspace ch) eqn:E.
    + exists (String ch l). simpl. by rewrite <- Hs.
    + by exists "".
Qed.

Lemma rstrip_spec (s : string) :
  ∃ r, s = rstrip s +:+ r ∧ all_space r ∧ last_not_space (rstrip s).
Proof.
  induction s as [|ch s (r & Hs & Hr & Hl)]; simpl.
  - by exists "".
  - destruct (rstrip s) as [|k kept] eqn:E.
    + simpl in Hs. subst r. destruct (isspace ch) eqn:Ec.
      * exists (String ch s). by simpl.
      * exists s. by simpl.
    + exists r. simpl in *. by rewrite <- Hs.
Qed.

Lemma rstrip_head (s : string) : head_not_space s → head_not_space (rstrip s).
Proof.
  destruct s as [|ch s]; simpl; [done |]. intros H.
  destruct (rstrip s); [by rewrite H | done].
Qed.

(** [strip] removes exactly the white space around the text. *)
Lemma strip_spec (s : string) :
  ∃ l r, s = l +:+ strip s +:+ r ∧ all_space l ∧ all_space r
         ∧ head_not_space (strip s) ∧ last_not_space (strip s).
Proof.
  destruct (lstrip_spec s) as (l & Hs & Hl & Hh).
  destruct (rstrip_spec (lstrip s)) as (r & Hs' & Hr & Hlast).
  exists l, r. unfold strip. repeat split; auto using rstrip_head.
  by rewrite <- Hs'.
Qed.


Lemma contains_append_l (a b t : string) : contains a t → contains (a +:+ b) t.
Proof.
  intros (x & y & ->). exists x, (y +:+ b). by rewrite !append_assoc.
Qed.

Lemma contains_append_r (a b t : string) : contains b t → contains (a +:+ b) t.
Proof.
  intros (x & y & ->). exists (a +:+ x), y. by rewrite !append_assoc.
Qed.

Lemma contains_trans (s u t : string) : contains s u → contains u t → contains s t.
Proof.
  intros (x & y & ->) Hu. by apply contains_append_r, contains_append_l.
Qed.

End PyStrFacts.

(** ** Columns: minimum and maximum of the present values *)

Lemma foldl_min_spec (zs : list Z) (z : Z) :
foldl Z.min z zs ∈ z :: zs ∧ ∀ x, x ∈ z :: zs → foldl Z.min z zs ≤ x.
Proof.
revert z. induction zs as [|y zs IH]; intros z; simpl.
- split; [left |]. intros x Hx. apply list_elem_of_singleton in Hx. lia.
- destruct (IH (Z.min z y)) as [Hin Hle].
  pose proof (Hle _ (list_elem_of_here _ _)) as Hhead. split.
  + apply elem_of_cons in Hin as [-> | Hin]; [| by do 2 right].
    destruct (Z.min_spec z y) as [[_ ->] | [_ ->]]; [left | right; left].
  + intros x Hx. apply elem_of_cons in Hx as [-> | Hx]; [lia |].
    apply elem_of_cons in Hx as [-> | Hx]; [lia |].
    apply Hle. by right.
Qed.

Lemma foldl_max_spec (zs : list Z) (z : Z) :
foldl Z.max z zs ∈ z :: zs ∧ ∀ x, x ∈ z :: zs → x ≤ foldl Z.max z zs.
Proof.
revert z. induction zs as [|y zs IH]; intros z; simpl.
- split; [left |]. intros x Hx. apply list_elem_of_singleton in Hx. lia.
- destruct (IH (Z.max z y)) as [Hin Hle].
  pose proof (Hle _ (list_elem_of_here _ _)) as Hhead. split.
  + apply elem_of_cons in Hin as [-> | Hin]; [| by do 2 right].
    destruct (Z.max_spec z y) as [[_ ->] | [_ ->]]; [right; left | left].
  + intros x Hx. apply elem_of_cons in Hx as [-> | Hx]; [lia |].
    apply elem_of_cons in Hx as [-> | Hx]; [lia |].
    apply Hle. by right.
Qed.

(** The least present value is what [Series.min] returns. *)
Lemma Series_min_least (column : list num) (lo : Z) :
lo ∈ dropna column → (∀ x, x ∈ dropna column → lo ≤ x) →
Series_min column = Num lo.
Proof.
unfold Series_min. destruct (dropna column) as [|z zs]; [by intros ?%elem_of_nil |].
intros Hin Hle. destruct (foldl_min_spec zs z) as [Hm Hml].
f_equal. apply Z.le_antisymm; auto.
Qed.

Lemma Series_max_greatest (column : list num) (hi : Z) :
hi ∈ dropna column → (∀ x, x ∈ dropna column → x ≤ hi) →
Series_max column = Num hi.
Proof.
unfold Series_max. destruct (dropna column) as [|z zs]; [by intros ?%elem_of_nil |].
intros Hin Hle. destruct (foldl_max_spec zs z) as [Hm Hml].
f_equal. apply Z.le_antisymm; auto.
Qed.

(** ** numpy arithmetic *)

(** Below 2^53 in magnitude a result is the same in both dtypes: the
  integer itself. *)
Lemma f64_round_exact (z : Z) : - 2 ^ 53 < z < 2 ^ 53 → f64_round z = z.
Proof.
  intros Hz. unfold f64_round.
  assert (Hlog : Z.log2 (Z.abs z) - 52 ≤ 0).
  { destruct (decide (Z.abs z = 0)) as [-> | Hne]; [done |].
    assert (Z.log2 (Z.abs z) < 53); [| lia].
    apply Z.log2_lt_pow2; lia. }
  rewrite Z.max_l by lia. change (2 ^ 0) with 1.
  rewrite Z.div_1_r, Z.mod_1_r. simpl. lia.
Qed.

Lemma wrap64_exact (z : Z) : - 2 ^ 63 ≤ z < 2 ^ 63 → wrap64 z = z.
Proof. intros Hz. unfold wrap64. rewrite Z.mod_small; lia. Qed.

Lemma np_result_exact (d : dtype) (z : Z) :
  - 2 ^ 53 < z < 2 ^ 53 → np_result d z = z.
Proof.
  intros Hz. destruct d; simpl.
  - by apply f64_round_exact.
  - apply wrap64_exact. lia.
Qed.

Section Properties.

Context {Geometry GeoInterface : Type}.
Variable geo_interface : Geometry → GeoInterface.
Variable object_scale : list (pyval (Geometry := Geometry)) → exn + (num * num).
Variable colormap_call : LinearColormap → pyval (Geometry := Geometry) → exn + string.

Local Abbreviation Layer :=
  (GeoJson (Geometry := Geometry) (GeoInterface := GeoInterface)).
Local Abbreviation Folium :=
  (FoliumMap (Geometry := Geometry) (GeoInterface := GeoInterface)).

Implicit Types (gdf : GeoDataFrame (Geometry := Geometry)).
Implicit Types (row : Row (Geometry := Geometry)).
Implicit Types (m : Folium) (layer : Layer) (ls : list Layer).
Implicit Types (variable : string) (variable_labels : gmap string string).

(** ** The monad *)

Lemma read_only_ret {A} (a : A) : read_only (Geometry := Geometry) (ret a).
Proof. done. Qed.

Lemma read_only_raise {A} (e : exn) : read_only (Geometry := Geometry) (raise (A := A) e).
Proof. done. Qed.

Lemma read_only_bind {A B} (c : M A) (k : A → M (Geometry := Geometry) B) :
  read_only c → (∀ a, read_only (k a)) → read_only (bind c k).
Proof.
  intros Hc Hk gdf. unfold table_after, bind.
  specialize (Hc gdf). unfold table_after in Hc.
  destruct (c gdf) as [[e | a] gdf']; simpl in *; subst gdf'; [done |].
  apply Hk.
Qed.

Lemma read_only_columns : read_only (Geometry := Geometry) DataFrame_columns.
Proof. done. Qed.

Lemma read_only_getitem key : read_only (Geometry := Geometry) (DataFrame_getitem key).
Proof. intros gdf. unfold table_after, DataFrame_getitem. by repeat case_decide. Qed.

Lemma read_only_lift {A} (r : exn + A) : read_only (Geometry := Geometry) (lift r).
Proof. done. Qed.

Lemma read_only_iterrows : read_only (Geometry := Geometry) DataFrame_iterrows.
Proof. done. Qed.

Lemma read_only_extract_variable_labels :
  read_only (Geometry := Geometry) extract_variable_labels.
Proof.
  apply read_only_bind; [apply read_only_columns | intros; apply read_only_ret].
Qed.

Lemma read_only_create_colormap variable variable_labels :
  read_only (Geometry := Geometry) (create_colormap object_scale variable variable_labels).
Proof.
  unfold create_colormap.
  apply read_only_bind; [apply read_only_getitem | intros column].
  apply read_only_bind; [apply read_only_getitem | intros column'].
  destruct (column_min column) as [d lo | cells], (column_max column') as [d' hi | cells'];
    try (apply read_only_bind; [apply read_only_lift | intros domain; apply read_only_ret]).
  destruct (num_eqb _ _); apply read_only_ret.
Qed.

Lemma read_only_generate_map variable variable_labels :
  read_only (Geometry := Geometry)
    (generate_map geo_interface object_scale colormap_call variable variable_labels).
Proof.
  unfold generate_map.
  apply read_only_bind; [apply read_only_create_colormap | intros colormap].
  apply read_only_bind; [apply read_only_iterrows | intros items].
  apply read_only_ret.
Qed.

Lemma read_only_main :
  read_only (Geometry := Geometry) (main geo_interface object_scale colormap_call).
Proof.
  unfold main.
  apply read_only_bind; [apply read_only_columns | intros columns].
  apply read_only_bind; [apply read_only_extract_variable_labels | intros labels].
  apply read_only_bind; [apply read_only_columns | intros columns'].
  destruct (negb _); [apply read_only_raise | apply read_only_generate_map].
Qed.

(** ** create_colormap *)

(** What [create_colormap] returns on a table that has the column. *)
Lemma create_colormap_run gdf variable variable_labels :
  variable ∈ metric_columns gdf →
  ∃ colormap,
    create_colormap object_scale variable variable_labels gdf = (inr colormap, gdf) ∧
    let d := column_dtype variable gdf in
    let lo := Series_min (column_values variable gdf) in
    let hi := Series_max (column_values variable gdf) in
    legend_domain colormap
    = (if num_eqb lo hi then (num_sub d lo 1, num_add d hi 1) else (lo, hi)).
Proof.
  intros Hin. unfold create_colormap, bind, DataFrame_getitem.
  rewrite decide_True by done. simpl. rewrite decide_True by done. simpl.
  destruct (num_eqb _ _); eexists; (split; [reflexivity | done]).
Qed.

Lemma create_colormap_KeyError gdf variable variable_labels :
  variable ∉ frame_columns gdf →
  create_colormap object_scale variable variable_labels gdf
  = (inl (KeyError variable), gdf).
Proof.
  intros Hcol. unfold frame_columns in Hcol.
  rewrite not_elem_of_app, elem_of_elements in Hcol. destruct Hcol as [Hobj Hin].
  unfold create_colormap, bind, DataFrame_getitem.
  by rewrite !decide_False.
Qed.

(** Whatever the column, [create_colormap] hands the table back. *)
Lemma create_colormap_table gdf variable variable_labels :
  snd (create_colormap object_scale variable variable_labels gdf) = gdf.
Proof. apply read_only_create_colormap. Qed.

(** ** generate_map *)

(** The layers the loop builds from a list of rows: one for each row that
    has a geometry, in the order of the rows. *)
Local Abbreviation layers_for colormap variable rs :=
  (omap (λ row : Row, row_layer geo_interface colormap_call colormap variable row
                        <$> geometry row) rs).

Lemma loop_run colormap variable (f : nat → Row → nat * Row) :
  (∀ i row, snd (f i row) = row) →
  ∀ (rs : list Row) m,
    foldl (loop_body geo_interface colormap_call colormap variable) m (imap f rs)
    = {| location := location m; zoom_start := zoom_start m;
         children := (children m ++ (GeoJsonChild <$> layers_for colormap variable rs))%list |}.
Proof.
  intros Hf rs. revert f Hf. induction rs as [|row rs IH]; intros f Hf m; simpl.
  - rewrite app_nil_r. by destruct m.
  - rewrite IH by (intros; apply Hf).
    unfold loop_body at 1 2 3. rewrite Hf.
    destruct (geometry row) as [geom|]; simpl; [| done].
    by rewrite <- app_assoc.
Qed.

(** The map built once the scale is there, and the error passed on when it
  is not. *)
Lemma generate_map_of_colormap gdf variable variable_labels (c : LinearColormap) :
  create_colormap object_scale variable variable_labels gdf = (inr c, gdf) →
  generate_map geo_interface object_scale colormap_call variable variable_labels gdf
  = (inr {| location := location (folium_Map (Geometry := Geometry) (GeoInterface := GeoInterface));
            zoom_start := 4;
            children :=
              TileLayerChild "OpenStreetMap"
              :: ColormapChild c
              :: ((GeoJsonChild <$> layers_for c variable (rows gdf))
                  ++ [LayerControl])%list |},
     gdf).
Proof.
  intros Hc. unfold generate_map, bind. rewrite Hc. simpl.
  rewrite (loop_run c variable pair) by done. done.
Qed.

Lemma generate_map_error gdf variable variable_labels (e : exn) :
  create_colormap object_scale variable variable_labels gdf = (inl e, gdf) →
  generate_map geo_interface object_scale colormap_call variable variable_labels gdf
  = (inl e, gdf).
Proof. intros Hc. unfold generate_map, bind. by rewrite Hc. Qed.

Lemma generate_map_run gdf variable variable_labels :
  variable ∈ metric_columns gdf →
  ∃ colormap,
    create_colormap object_scale variable variable_labels gdf = (inr colormap, gdf) ∧
    generate_map geo_interface object_scale colormap_call variable variable_labels gdf
    = (inr {| location := location (folium_Map (Geometry := Geometry) (GeoInterface := GeoInterface));
              zoom_start := 4;
              children :=
                TileLayerChild "OpenStreetMap"
                :: ColormapChild colormap
                :: ((GeoJsonChild <$> layers_for colormap variable (rows gdf))
                    ++ [LayerControl])%list |},
       gdf).
Proof.
  intros Hin.
  destruct (create_colormap_run gdf variable variable_labels Hin) as (c & Hc & _).
  exists c. split; [done |]. by apply generate_map_of_colormap.
Qed.

Lemma generate_map_KeyError gdf variable variable_labels :
  variable ∉ frame_columns gdf →
  generate_map geo_interface object_scale colormap_call variable variable_labels gdf
  = (inl (KeyError variable), gdf).
Proof. intros Hcol. by apply generate_map_error, create_colormap_KeyError. Qed.

Lemma geojson_layers_children (c : LinearColormap) ls loc zoom :
  geojson_layers
    {| location := loc; zoom_start := zoom;
       children :=
         TileLayerChild "OpenStreetMap"
         :: ColormapChild c :: ((GeoJsonChild <$> ls) ++ [LayerControl])%list |}
  = ls.
Proof.
  unfold geojson_layers. simpl. rewrite omap_app. simpl. rewrite app_nil_r.
  induction ls as [|l ls IH]; simpl; [done | f_equal; apply IH].
Qed.

Lemma legends_children (c : LinearColormap) ls loc zoom :
  legends
    {| location := loc; zoom_start := zoom;
       children :=
         TileLayerChild "OpenStreetMap"
         :: ColormapChild c :: ((GeoJsonChild <$> ls) ++ [LayerControl])%list |}
  = [c].
Proof.
  unfold legends. simpl. rewrite omap_app. simpl. f_equal.
  induction ls as [|l ls IH]; simpl; [done | apply IH].
Qed.

Lemma filter_has_geometry_cons row (rs : list Row) :
  filter (λ r, has_geometry r) (row :: rs)
  = match geometry row with
    | Some _ => row :: filter (λ r, has_geometry r) rs
    | None => filter (λ r, has_geometry r) rs
    end.
Proof.
  destruct (geometry row) eqn:E.
  - rewrite filter_cons_True; [done |]. unfold has_geometry. by rewrite E.
  - rewrite filter_cons_False; [done |]. unfold has_geometry. rewrite E. tauto.
Qed.

Lemma layers_for_length colormap variable (rs : list Row) :
  length (layers_for colormap variable rs)
  = length (filter (λ row, has_geometry row) rs).
Proof.
  induction rs as [|row rs IH]; simpl; [done |].
  rewrite filter_has_geometry_cons.
  destruct (geometry row); simpl; [f_equal |]; exact IH.
Qed.

Lemma layers_for_tooltip colormap variable (rs : list Row) :
  tooltip <$> layers_for colormap variable rs
  = NAME <$> filter (λ row, has_geometry row) rs.
Proof.
  induction rs as [|row rs IH]; simpl; [done |].
  rewrite filter_has_geometry_cons.
  destruct (geometry row); simpl; [f_equal |]; exact IH.
Qed.

Lemma layers_for_geometry colormap variable (rs : list Row) :
  (λ layer, feature_geometry (data layer)) <$> layers_for colormap variable rs
  = omap (λ row, geo_interface <$> geometry row) rs.
Proof.
  induction rs as [|row rs IH]; simpl; [done |].
  destruct (geometry row); simpl; [f_equal |]; exact IH.
Qed.

(** C1: on a table that has the metric column, [generate_map] returns a
    map whose GeoJson layers are exactly the layers of the rows with a
    geometry, in the order of the rows: a row without geometry adds
    nothing and raises nothing, so there are as many layers as rows with
    a geometry, and their tooltips and geometries follow the input order
    restricted to these rows. *)
Theorem generate_map_layers gdf variable variable_labels :
  variable ∈ metric_columns gdf →
  ∃ m colormap,
    result_of (generate_map geo_interface object_scale colormap_call variable variable_labels) gdf
    = inr m
    ∧ result_of (create_colormap object_scale variable variable_labels) gdf = inr colormap
    ∧ geojson_layers m
      = omap (λ row, row_layer geo_interface colormap_call colormap variable row
                       <$> geometry row) (rows gdf)
    ∧ length (geojson_layers m)
      = length (filter (λ row, has_geometry row) (rows gdf))
    ∧ tooltip <$> geojson_layers m
      = NAME <$> filter (λ row, has_geometry row) (rows gdf)
    ∧ (λ layer, feature_geometry (data layer)) <$> geojson_layers m
      = omap (λ row, geo_interface <$> geometry row) (rows gdf).
Proof.
  intros Hin.
  destruct (generate_map_run gdf variable variable_labels Hin) as (c & Hc & Hm).
  eexists _, c. unfold result_of. rewrite Hm, Hc. simpl.
  rewrite geojson_layers_children.
  split; [done |]. split; [done |]. split; [done |].
  split; [apply layers_for_length |].
  split; [apply layers_for_tooltip | apply layers_for_geometry].
Qed.

(** The cells of a column and the values of the rows. *)
Lemma present_value_in_column gdf variable row (z : Z) :
  row ∈ rows gdf → metrics row !! variable = Some (Num z) →
  z ∈ dropna (column_values variable gdf).
Proof.
  intros Hrow Hz. unfold dropna, column_values.
  apply list_elem_of_omap. exists (Num z). split; [| done].
  apply list_elem_of_fmap. exists row. by rewrite Hz.
Qed.

Lemma column_value_present gdf variable (z : Z) :
  z ∈ dropna (column_values variable gdf) →
  ∃ row, row ∈ rows gdf ∧ metrics row !! variable = Some (Num z).
Proof.
  unfold dropna, column_values. intros Hz.
  apply list_elem_of_omap in Hz as (x & Hx & Hxz).
  apply list_elem_of_fmap in Hx as (row & -> & Hrow).
  exists row. split; [done |].
  destruct (metrics row !! variable) as [[|z']|]; simpl in Hxz; try done.
  by injection Hxz as ->.
Qed.

(** Minimum and maximum of a column, read off the rows. *)
Lemma column_extremes gdf variable (lo hi : Z) :
  (∃ row, row ∈ rows gdf ∧ metrics row !! variable = Some (Num lo)) →
  (∃ row, row ∈ rows gdf ∧ metrics row !! variable = Some (Num hi)) →
  (∀ row z, row ∈ rows gdf → metrics row !! variable = Some (Num z) → lo ≤ z ≤ hi) →
  Series_min (column_values variable gdf) = Num lo
  ∧ Series_max (column_values variable gdf) = Num hi.
Proof.
  intros (rlo & Hrlo & Hlo) (rhi & Hrhi & Hhi) Hb.
  assert (Hall : ∀ x, x ∈ dropna (column_values variable gdf) → lo ≤ x ≤ hi).
  { intros x Hx. apply column_value_present in Hx as (row & Hrow & Hx). by eapply Hb. }
  split.
  - apply Series_min_least; [exact (present_value_in_column gdf variable rlo lo Hrlo Hlo) |].
    intros x Hx. by apply Hall.
  - apply Series_max_greatest; [exact (present_value_in_column gdf variable rhi hi Hrhi Hhi) |].
    intros x Hx. by apply Hall.
Qed.


(** C5: a metric code that is not a column of the table is rejected: the
    column lookup that opens [create_colormap] raises [KeyError] on the
    code, so no scale is built and [generate_map] ends with that error and
    no map; for the preset code, [main] stops before it with the message
    that the variable was not found. *)
Theorem unknown_metric_rejected gdf variable variable_labels :
  variable ∉ frame_columns gdf →
  result_of (create_colormap object_scale variable variable_labels) gdf = inl (KeyError variable)
  ∧ result_of (generate_map geo_interface object_scale colormap_call variable variable_labels) gdf
    = inl (KeyError variable)
  ∧ (variable = PRESET_VARIABLE →
     result_of (main geo_interface object_scale colormap_call) gdf
     = inl (StopException "Preset variable 'P12_027N' not found in the data.")).
Proof.
  intros Hcol.
  unfold result_of.
  rewrite create_colormap_KeyError, generate_map_KeyError by done.
  split; [done |]. split; [done |]. intros ->.
  unfold main, bind. simpl.
  by rewrite bool_decide_eq_false_2.
Qed.

Lemma dropna_with_values_only gdf variable :
  dropna (column_values variable (with_values_only variable gdf))
  = dropna (column_values variable gdf).
Proof.
  unfold column_values, with_values_only. cbn [rows].
  induction (rows gdf) as [|row rs IH]; [done |].
  destruct (metrics row !! variable) as [[|z]|] eqn:Hz.
  - rewrite filter_cons_False by (unfold has_value; rewrite Hz; simpl; tauto).
    rewrite IH, fmap_cons, Hz. done.
  - rewrite filter_cons_True by (unfold has_value; by rewrite Hz).
    rewrite !fmap_cons, Hz. simpl. f_equal. exact IH.
  - rewrite filter_cons_False by (unfold has_value; rewrite Hz; simpl; tauto).
    rewrite IH, fmap_cons, Hz. done.
Qed.

(** C6: the domain of the scale is computed from the values the rows hold
    and from nothing else.  Leaving out every row whose metric is missing
    (absent or NaN) gives the same domain; and when the rows hold the
    values [lo] and [hi] with [lo < hi] and no value outside them, the
    domain is [(lo, hi)], however many rows hold no value: a missing
    entry does not count as zero, nor as anything. *)
Theorem create_colormap_ignores_missing gdf variable variable_labels :
  variable ∈ metric_columns gdf →
  ∃ colormap colormap',
    result_of (create_colormap object_scale variable variable_labels) gdf = inr colormap
    ∧ result_of (create_colormap object_scale variable variable_labels)
        (with_values_only variable gdf)
      = inr colormap'
    ∧ legend_domain colormap = legend_domain colormap'
    ∧ ∀ lo hi : Z,
        (∃ row, row ∈ rows gdf ∧ metrics row !! variable = Some (Num lo)) →
        (∃ row, row ∈ rows gdf ∧ metrics row !! variable = Some (Num hi)) →
        (∀ row z,
           row ∈ rows gdf → metrics row !! variable = Some (Num z) → lo ≤ z ≤ hi) →
        lo < hi →
        legend_domain colormap = (Num lo, Num hi).
Proof.
  intros Hin.
  destruct (create_colormap_run gdf variable variable_labels Hin) as (c & Hc & Hd).
  destruct (create_colormap_run (with_values_only variable gdf) variable variable_labels
              Hin) as (c' & Hc' & Hd').
  exists c, c'. unfold result_of. rewrite Hc, Hc'.
  split; [done |]. split; [done |]. cbn zeta in Hd, Hd'. split.
  - rewrite Hd, Hd'. unfold Series_min, Series_max.
    by rewrite dropna_with_values_only.
  - intros lo hi Hlo Hhi Hb Hlt.
    destruct (column_extremes gdf variable lo hi Hlo Hhi Hb) as [Hmin Hmax].
    rewrite Hd, Hmin, Hmax. cbn [num_eqb].
    by rewrite (proj2 (Z.eqb_neq lo hi)) by lia.
Qed.

(** ** The table after a call *)

Lemma Row_series_geometry row :
  Row_series row !! "geometry" = Some (from_option PyGeom PyNone (geometry row)).
Proof. unfold Row_series. by rewrite lookup_insert_ne, lookup_insert_eq. Qed.

Lemma dropped_properties row (label : string) :
  label ∈ ["geometry"; "Female_BarChart"; "Male_BarChart"] →
  Series_to_dict
    (Series_drop ["geometry"; "Female_BarChart"; "Male_BarChart"] (Row_series row))
  !! label = None.
Proof.
  unfold Series_to_dict, Series_drop. simpl. intros Hl.
  repeat (apply elem_of_cons in Hl as [-> | Hl]);
    [| | | by apply elem_of_nil in Hl].
  - apply lookup_delete_eq.
  - rewrite lookup_delete_ne by done. apply lookup_delete_eq.
  - rewrite !lookup_delete_ne by done. apply lookup_delete_eq.
Qed.

(** C9: whatever its outcome, [generate_map] leaves the table as it found
    it; every layer of the map it returns is derived from a row that is
    still in the table, with its geometry: the layer's properties are the
    row's Series without the three dropped labels, its tooltip the row's
    name and its popup the row's markup, while the row keeps its
    geometry. *)
Theorem generate_map_leaves_table gdf variable variable_labels :
  table_after (generate_map geo_interface object_scale colormap_call variable variable_labels) gdf
  = gdf
  ∧ ∀ m layer,
      result_of (generate_map geo_interface object_scale colormap_call variable variable_labels) gdf
      = inr m →
      layer ∈ geojson_layers m →
      ∃ row geom,
        row ∈ rows (table_after
                      (generate_map geo_interface object_scale colormap_call variable variable_labels)
                      gdf)
        ∧ geometry row = Some geom
        ∧ properties (data layer)
          = Series_drop ["geometry"; "Female_BarChart"; "Male_BarChart"] (Row_series row)
        ∧ tooltip layer = NAME row
        ∧ html (popup layer) = create_html_content row
        ∧ feature_geometry (data layer) = geo_interface geom
        ∧ properties (data layer) !! "geometry" = None
        ∧ properties (data layer) !! "Female_BarChart" = None
        ∧ properties (data layer) !! "Male_BarChart" = None
        ∧ Row_series row !! "geometry" = Some (PyGeom geom).
Proof.
  split; [apply read_only_generate_map |].
  intros m layer Hm Hl. rewrite read_only_generate_map.
  pose proof (create_colormap_table gdf variable variable_labels) as Htable.
  destruct (create_colormap object_scale variable variable_labels gdf)
    as [[e | c] gdf'] eqn:Hcolormap; simpl in Htable; subst gdf'.
  - unfold result_of in Hm.
    by rewrite (generate_map_error gdf variable variable_labels e Hcolormap) in Hm.
  - pose proof (generate_map_of_colormap gdf variable variable_labels c Hcolormap) as Hrun.
    unfold result_of in Hm. rewrite Hrun in Hm. simpl in Hm.
    injection Hm as <-. rewrite geojson_layers_children in Hl.
    apply list_elem_of_omap in Hl as (row & Hrow & Hlayer).
    destruct (geometry row) as [geom|] eqn:Hg; [| done].
    simpl in Hlayer. injection Hlayer as <-.
    exists row, geom. split; [done |]. split; [done |].
    split; [done |]. split; [done |]. split; [done |]. split; [done |].
    split; [apply dropped_properties; by left |].
    split; [apply dropped_properties; right; by left |].
    split; [apply dropped_properties; do 2 right; by left |].
    by rewrite Row_series_geometry, Hg.
Qed.

(** ** style_function *)

Lemma row_properties_metric row variable :
  variable ∉ object_columns →
  Series_to_dict
    (Series_drop ["geometry"; "Female_BarChart"; "Male_BarChart"] (Row_series row))
  !! variable = PyFloat <$> metrics row !! variable.
Proof.
  intros Hv. unfold object_columns in Hv.
  rewrite !not_elem_of_cons in Hv. destruct Hv as (H1 & H2 & H3 & H4 & _).
  unfold Series_to_dict, Series_drop, Row_series. simpl.
  rewrite !lookup_delete_ne by done. rewrite !lookup_insert_ne by done.
  apply lookup_fmap.
Qed.

(** C3: for every scale and every feature, a missing metric value (no
    such property, [None] or NaN) gives the fixed style: grey fill, black
    border, weight 0.5, fill opacity 0.7, whatever the scale is; any other
    value gives the same border, weight and opacity with the fill the
    scale returns for the value (and the scale's exception when it raises
    one).  For the layer built from a row this reads: the grey style when
    the row's metric is absent or NaN, the scale's colour otherwise. *)
Theorem style_function_cases colormap variable :
  (∀ feature : Feature (Geometry := Geometry) (GeoInterface := GeoInterface),
     (properties feature !! variable = None
      ∨ properties feature !! variable = Some PyNone
      ∨ properties feature !! variable = Some (PyFloat NaN) →
      style_function colormap_call colormap variable feature
      = inr {| fillColor := "grey"; color := "black";
               weight := QArith_base.Qmake 1 2;
               fillOpacity := QArith_base.Qmake 7 10 |})
     ∧ (∀ val,
          properties feature !! variable = Some val →
          val ≠ PyNone → val ≠ PyFloat NaN →
          style_function colormap_call colormap variable feature
          = match colormap_call colormap val with
            | inr colour =>
                inr {| fillColor := colour; color := "black";
                       weight := QArith_base.Qmake 1 2;
                       fillOpacity := QArith_base.Qmake 7 10 |}
            | inl e => inl e
            end))
  ∧ (∀ row geom,
       variable ∉ object_columns →
       layer_style (row_layer geo_interface colormap_call colormap variable row geom)
       = match metrics row !! variable with
         | Some (Num z) =>
             match colormap_call colormap (PyFloat (Num z)) with
             | inr colour =>
                 inr {| fillColor := colour; color := "black";
                        weight := QArith_base.Qmake 1 2;
                        fillOpacity := QArith_base.Qmake 7 10 |}
             | inl e => inl e
             end
         | _ =>
             inr {| fillColor := "grey"; color := "black";
                    weight := QArith_base.Qmake 1 2;
                    fillOpacity := QArith_base.Qmake 7 10 |}
         end).
Proof.
  split.
  - intros feature. unfold style_function. split.
    + intros [-> | [-> | ->]]; done.
    + intros val -> Hnone Hnan. simpl.
      destruct val as [| [|z] | s | g]; done.
  - intros row geom Hv. unfold layer_style, row_layer, style_function.
    cbn [data properties layer_style_function].
    rewrite row_properties_metric by done.
    destruct (metrics row !! variable) as [[|z]|]; done.
Qed.

(** ** create_html_content *)

Import PyStr PyStrFacts.




Lemma charts_panel_female (name : string) (f m : payload) :
  contains (charts_panel name f m)
           (line 24 "<h5>Female Age Data</h5>" +:+ line 24 (img_tag f)).
Proof.
  exists (nl +:+ line 12 ("<div style=" +:+ quoted "width: 300px;" +:+ ">")
          +:+ line 16 ("<h4>" +:+ name +:+ "</h4>")
          +:+ line 16 ("<div style="
                       +:+ quoted "display: flex; flex-direction: column; gap: 10px;"
                       +:+ ">")
          +:+ line 20 "<div>").
  eexists. unfold charts_panel. rewrite !append_assoc. reflexivity.
Qed.

Lemma charts_panel_male (name : string) (f m : payload) :
  contains (charts_panel name f m)
           (line 24 "<h5>Male Age Data</h5>" +:+ line 24 (img_tag m)).
Proof.
  exists (nl +:+ line 12 ("<div style=" +:+ quoted "width: 300px;" +:+ ">")
          +:+ line 16 ("<h4>" +:+ name +:+ "</h4>")
          +:+ line 16 ("<div style="
                       +:+ quoted "display: flex; flex-direction: column; gap: 10px;"
                       +:+ ">")
          +:+ line 20 "<div>"
          +:+ line 24 "<h5>Female Age Data</h5>"
          +:+ line 24 (img_tag f)
          +:+ line 20 "</div>"
          +:+ line 20 "<div>").
  eexists. unfold charts_panel. rewrite !append_assoc. reflexivity.
Qed.

Lemma img_tag_source (img : payload) :
  contains (img_tag img)
           ("src=" +:+ dq +:+ "data:image/png;base64," +:+ format_payload img +:+ dq).
Proof.
  exists "<img ", (" style=" +:+ quoted "width: 280px; height: 150px;" +:+ ">").
  unfold img_tag, quoted. by rewrite !append_assoc.
Qed.


(** The two panels never coincide: after the heading one goes on with a
    paragraph, the other with a block. *)
Lemma panels_differ (name : string) (f m : payload) :
  charts_panel name f m ≠ no_data_panel name.
Proof.
  unfold charts_panel, no_data_panel, line. intros H.
  rewrite !append_assoc in H.
  repeat apply (inj (String.append _)) in H.
  vm_compute in H. discriminate H.
Qed.

Lemma create_html_content_None row :
  Female_BarChart row = ImgNone ∨ Male_BarChart row = ImgNone →
  create_html_content row = no_data_panel (NAME row).
Proof.
  unfold create_html_content. intros [-> | ->]; [done |].
  by rewrite orb_true_r.
Qed.

Lemma create_html_content_charts row :
  Female_BarChart row ≠ ImgNone → Male_BarChart row ≠ ImgNone →
  create_html_content row
  = charts_panel (NAME row) (Female_BarChart row) (Male_BarChart row).
Proof.
  unfold create_html_content. intros Hf Hm.
  destruct (Female_BarChart row), (Male_BarChart row); done.
Qed.


(** C10: the test for a missing chart is [is None] and nothing else: the
    panel is the one without charts exactly when one of the two payloads
    is [None]; any other pair of payloads gives the panel with two charts,
    each payload written as it is after the base64 prefix of its image,
    the empty string as nothing and the NaN placeholder as the text nan. *)
Theorem create_html_content_strict_None row :
  (create_html_content row = no_data_panel (NAME row)
   ↔ Female_BarChart row = ImgNone ∨ Male_BarChart row = ImgNone)
  ∧ (Female_BarChart row ≠ ImgNone → Male_BarChart row ≠ ImgNone →
     create_html_content row
     = charts_panel (NAME row) (Female_BarChart row) (Male_BarChart row)
     ∧ contains (create_html_content row)
                ("src=" +:+ dq +:+ "data:image/png;base64,"
                 +:+ format_payload (Female_BarChart row) +:+ dq)
     ∧ contains (create_html_content row)
                ("src=" +:+ dq +:+ "data:image/png;base64,"
                 +:+ format_payload (Male_BarChart row) +:+ dq))
  ∧ (∀ data, format_payload (ImgStr data) = data)
  ∧ format_payload ImgNaN = "nan".
Proof.
  split; [| split; [| done]].
  - split; [| apply create_html_content_None].
    intros Hpanel.
    destruct (Female_BarChart row) eqn:Ef; [by left | |];
      (destruct (Male_BarChart row) eqn:Em; [by right | |]);
      exfalso;
      rewrite create_html_content_charts in Hpanel by (rewrite ?Ef, ?Em; done);
      by apply panels_differ in Hpanel.
  - intros Hf Hm. rewrite (create_html_content_charts row Hf Hm).
    split; [done |]. split.
    + eapply contains_trans; [apply charts_panel_female |].
      apply contains_append_r. unfold line.
      apply contains_append_r, contains_append_l, img_tag_source.
    + eapply contains_trans; [apply charts_panel_male |].
      apply contains_append_r. unfold line.
      apply contains_append_r, contains_append_l, img_tag_source.
Qed.

(** ** extract_variable_labels *)

Local Abbreviation add_label :=
  (λ (variable_labels : gmap string string) (col : string),
     if startswith "P12_" col
     then <[col := column_label col]> variable_labels
     else variable_labels).

Lemma labels_kept (cols : list string) (acc : gmap string string) (col : string) :
  acc !! col = Some (column_label col) →
  foldl add_label acc cols !! col = Some (column_label col).
Proof.
  revert acc. induction cols as [|c cols IH]; intros acc Hacc; simpl; [done |].
  apply IH. destruct (startswith "P12_" c); [| done].
  destruct (decide (c = col)) as [-> | Hne].
  - apply lookup_insert_eq.
  - by rewrite lookup_insert_ne.
Qed.

Lemma labels_found (cols : list string) (acc : gmap string string) (col : string) :
  col ∈ cols → startswith "P12_" col = true →
  foldl add_label acc cols !! col = Some (column_label col).
Proof.
  intros Hin Hp. revert acc.
  induction cols as [|c cols IH]; intros acc; simpl; [by apply elem_of_nil in Hin |].
  apply elem_of_cons in Hin as [<- | Hin].
  - rewrite Hp. apply labels_kept, lookup_insert_eq.
  - by apply IH.
Qed.

Lemma column_label_three (a b c : string) :
  occurs "_" a = 0%nat → occurs "_" b = 0%nat →
  column_label (a +:+ "_" +:+ b +:+ "_" +:+ c) = strip c.
Proof.
  intros Ha Hb. unfold column_label.
  change (a +:+ "_" +:+ b +:+ "_" +:+ c) with (a +:+ String "_" (b +:+ String "_" c)).
  by rewrite (split_three "_" a b c Ha Hb).
Qed.

Lemma column_label_short (col : string) :
  (occurs "_" col < 2)%nat → column_label col = col.
Proof.
  intros Hocc. unfold column_label. rewrite split_length.
  destruct (Nat.eqb_spec (S (2 `min` occurs "_" col)) 3); [lia | done].
Qed.

(** C7: every column whose name starts with the metric prefix gets a
    label.  When the name is made of three segments joined by underscores
    (the first two without underscore, the third taken whole), the label
    is the third segment without the white space around it; when the name
    has fewer than two underscores, the label is the name itself. *)
Theorem extract_variable_labels_label gdf (col : string) :
  col ∈ frame_columns gdf →
  startswith "P12_" col = true →
  ∃ (labels : gmap string string) (label : string),
    result_of extract_variable_labels gdf = inr labels
    ∧ labels !! col = Some label
    ∧ (∀ a b c : string,
         col = a +:+ "_" +:+ b +:+ "_" +:+ c →
         occurs "_" a = 0%nat → occurs "_" b = 0%nat →
         ∃ l r, c = l +:+ label +:+ r ∧ all_space l ∧ all_space r
                ∧ head_not_space label ∧ last_not_space label)
    ∧ ((occurs "_" col < 2)%nat → label = col).
Proof.
  intros Hin Hp. eexists _, (column_label col).
  split; [reflexivity |]. split; [by apply labels_found |]. split.
  - intros a b c -> Ha Hb. rewrite (column_label_three a b c Ha Hb).
    apply strip_spec.
  - apply column_label_short.
Qed.

End Properties.

(** ** The properties on the sample tables *)

Lemma generate_map_layers_witness :
Sample.code ∈ metric_columns Sample.with_hidden
∧ ∃ m colormap,
    result_of (generate_map Sample.geo Sample.objects Sample.colour_of Sample.code ∅) Sample.with_hidden
    = inr m
    ∧ result_of (create_colormap Sample.objects Sample.code ∅) Sample.with_hidden = inr colormap
    ∧ geojson_layers m
      = omap (λ row, row_layer Sample.geo Sample.colour_of colormap Sample.code row
                       <$> geometry row) (rows Sample.with_hidden)
    ∧ length (geojson_layers m)
      = length (filter (λ row, has_geometry row) (rows Sample.with_hidden))
    ∧ tooltip <$> geojson_layers m
      = NAME <$> filter (λ row, has_geometry row) (rows Sample.with_hidden)
    ∧ (λ layer, feature_geometry (data layer)) <$> geojson_layers m
      = omap (λ row, Sample.geo <$> geometry row) (rows Sample.with_hidden).
Proof.
assert (H : Sample.code ∈ metric_columns Sample.with_hidden) by compute_done.
split; [exact H |].
exact (generate_map_layers Sample.geo Sample.objects Sample.colour_of Sample.with_hidden Sample.code ∅ H).
Defined.



Lemma unknown_metric_rejected_witness :
(PRESET_VARIABLE ∉ frame_columns Sample.other_metric)
∧ result_of (create_colormap Sample.objects PRESET_VARIABLE ∅) Sample.other_metric
  = inl (KeyError PRESET_VARIABLE)
∧ result_of (generate_map Sample.geo Sample.objects Sample.colour_of PRESET_VARIABLE ∅) Sample.other_metric
  = inl (KeyError PRESET_VARIABLE)
∧ (PRESET_VARIABLE = PRESET_VARIABLE →
   result_of (main Sample.geo Sample.objects Sample.colour_of) Sample.other_metric
   = inl (StopException "Preset variable 'P12_027N' not found in the data.")).
Proof.
assert (H : PRESET_VARIABLE ∉ frame_columns Sample.other_metric) by compute_done.
split; [exact H |].
exact (unknown_metric_rejected Sample.geo Sample.objects Sample.colour_of Sample.other_metric
         PRESET_VARIABLE ∅ H).
Defined.

Lemma create_colormap_ignores_missing_witness :
  Sample.code ∈ metric_columns Sample.with_missing
  ∧ ∃ colormap colormap',
      result_of (create_colormap Sample.objects Sample.code ∅) Sample.with_missing
      = inr colormap
      ∧ result_of (create_colormap Sample.objects Sample.code ∅)
          (with_values_only Sample.code Sample.with_missing)
        = inr colormap'
      ∧ legend_domain colormap = legend_domain colormap'
      ∧ ∀ lo hi : Z,
          (∃ row, row ∈ rows Sample.with_missing
                  ∧ metrics row !! Sample.code = Some (Num lo)) →
          (∃ row, row ∈ rows Sample.with_missing
                  ∧ metrics row !! Sample.code = Some (Num hi)) →
          (∀ row z,
             row ∈ rows Sample.with_missing →
             metrics row !! Sample.code = Some (Num z) → lo ≤ z ≤ hi) →
          lo < hi →
          legend_domain colormap = (Num lo, Num hi).
Proof.
  assert (H : Sample.code ∈ metric_columns Sample.with_missing) by compute_done.
  split; [exact H |].
  exact (create_colormap_ignores_missing Sample.objects Sample.with_missing Sample.code ∅ H).
Defined.

Lemma extract_variable_labels_label_witness :
Sample.labelled ∈ frame_columns Sample.abc
∧ PyStr.startswith "P12_" Sample.labelled = true
∧ ∃ (labels : gmap string string) (label : string),
    result_of extract_variable_labels Sample.abc = inr labels
    ∧ labels !! Sample.labelled = Some label
    ∧ (∀ a b c : string,
         Sample.labelled = a +:+ "_" +:+ b +:+ "_" +:+ c →
         PyStr.occurs "_" a = 0%nat → PyStr.occurs "_" b = 0%nat →
         ∃ l r, c = l +:+ label +:+ r ∧ PyStr.all_space l ∧ PyStr.all_space r
                ∧ PyStr.head_not_space label ∧ PyStr.last_not_space label)
    ∧ ((PyStr.occurs "_" Sample.labelled < 2)%nat → label = Sample.labelled).
Proof.
assert (H : Sample.labelled ∈ frame_columns Sample.abc) by compute_done.
assert (Hp : PyStr.startswith "P12_" Sample.labelled = true) by reflexivity.
split; [exact H |]. split; [exact Hp |].
exact (extract_variable_labels_label Sample.abc Sample.labelled H Hp).
Defined.

(** The three regions A, B, C with values 10, 20, 30. *)
Example abc_map :
∃ m,
  result_of (generate_map Sample.geo Sample.objects Sample.colour_of Sample.code ∅) Sample.abc = inr m
  ∧ legend_domain <$> legends m = [(Num 10, Num 30)]
  ∧ tooltip <$> geojson_layers m = ["A"; "B"; "C"]
  ∧ layer_fill <$> geojson_layers m
    = [inr "#fff7ec"; inr "#fc8d59"; inr "#7f0000"].
Proof. eexists. split; [reflexivity |]. by vm_compute. Qed.

(** The same with the value of B missing and one of its charts absent. *)
Example with_missing_map :
∃ m,
  result_of (generate_map Sample.geo Sample.objects Sample.colour_of Sample.code ∅) Sample.with_missing
  = inr m
  ∧ legend_domain <$> legends m = [(Num 10, Num 30)]
  ∧ layer_fill <$> geojson_layers m
    = [inr "#fff7ec"; inr "grey"; inr "#7f0000"]
  ∧ (λ layer, html (popup layer)) <$> geojson_layers m
    = [charts_panel "A" (ImgStr "QUJD") (ImgStr "REVG");
       no_data_panel "B";
       charts_panel "C" (ImgStr "QUJD") (ImgStr "REVG")].
Proof. eexists. split; [reflexivity |]. by vm_compute. Qed.

(** The label of a column of three segments, and of a bare code. *)
Example labels_of_abc :
∃ labels,
  result_of extract_variable_labels Sample.abc = inr labels
  ∧ labels !! Sample.labelled = Some "Total Population"
  ∧ labels !! Sample.code = Some "P12_027N"
  ∧ labels !! "NAME" = None.
Proof. eexists. split; [reflexivity |]. by vm_compute. Qed.

(** The values 10 and 30 with a missing entry between them: the domain is
  (10, 30), not (0, 30). *)
Example missing_is_not_zero :
  ∃ colormap,
    result_of (create_colormap Sample.objects Sample.code ∅) Sample.with_missing
    = inr colormap
    ∧ legend_domain colormap = (Num 10, Num 30)
    ∧ column_values Sample.code Sample.with_missing = [Num 10; NaN; Num 30].
Proof. eexists. split; [reflexivity |]. by vm_compute. Qed.

(** A column whose values are all 42. *)
Example constant_domain :
∃ colormap,
  result_of (create_colormap Sample.objects Sample.code ∅) Sample.constant = inr colormap
  ∧ legend_domain colormap = (Num 41, Num 43).
Proof. eexists. split; [reflexivity |]. by vm_compute. Qed.

(** The table with a row without geometry: two layers, A then C. *)
Example with_hidden_map :
∃ m,
  result_of (generate_map Sample.geo Sample.objects Sample.colour_of Sample.code ∅) Sample.with_hidden
  = inr m
  ∧ tooltip <$> geojson_layers m = ["A"; "C"]
  ∧ length (children m) = 5%nat.
Proof. eexists. split; [reflexivity |]. by vm_compute. Qed.

(** * Further properties *)

(** ** Splitting and joining *)

Module PyStrMore.
Import PyStr PyStrFacts.

#[local] Arguments String.append !_ _ / : simpl nomatch.

Lemma length_append (a b : string) :
  String.length (a +:+ b) = (String.length a + String.length b)%nat.
Proof. induction a as [|ch a IH]; simpl; [done | by rewrite IH]. Qed.

Lemma partition_join sep (s before after : string) :
  partition sep s = Some (before, after) → s = before +:+ String sep after.
Proof.
  revert before. induction s as [|ch s IH]; simpl; [done |]. intros before.
  destruct (Ascii.eqb_spec ch sep) as [-> | Hne].
  - by intros [= <- <-].
  - destruct (partition sep s) as [[b a]|] eqn:E; [| done].
    intros [= <- <-]. simpl. f_equal. by apply IH.
Qed.

Lemma split_not_nil sep (n : nat) (s : string) : split sep n s ≠ [].
Proof.
  intros H. pose proof (split_length sep n s) as Hl. by rewrite H in Hl.
Qed.

Lemma concat_cons (sep x : string) (xs : list string) :
  xs ≠ [] → String.concat sep (x :: xs) = x +:+ sep +:+ String.concat sep xs.
Proof. by destruct xs. Qed.

Lemma all_space_lstrip (s : string) : all_space s → lstrip s = "".
Proof.
  induction s as [|ch s IH]; simpl; [done |]. intros [-> Hs]. by apply IH.
Qed.

Lemma all_space_strip (s : string) : all_space s → strip s = "".
Proof. intros H. unfold strip. by rewrite all_space_lstrip. Qed.

Lemma strip_length (s : string) : (String.length (strip s) ≤ String.length s)%nat.
Proof.
  destruct (strip_spec s) as (l & r & Hs & _).
  rewrite Hs at 2. rewrite !length_append. lia.
Qed.

Lemma concat_split sep (n : nat) (s : string) :
  String.concat (String sep "") (split sep n s) = s.
Proof.
  revert s. induction n as [|n IH]; intros s; simpl; [done |].
  destruct (partition sep s) as [[before after]|] eqn:E; [| done].
  rewrite concat_cons by apply split_not_nil.
  rewrite IH. symmetry. by apply partition_join.
Qed.

(** X2: the split a label is read from loses nothing: the parts of a
  column name cut at most twice at its underscores, joined again with
  underscores, are the name; they are one more than the underscores of the
  name, and three at most. *)
Theorem split_join (col : string) :
  String.concat "_" (split "_" 2 col) = col
  ∧ length (split "_" 2 col) = S (2 `min` occurs "_" col)
  ∧ (1 ≤ length (split "_" 2 col) ≤ 3)%nat.
Proof.
  pose proof (split_length "_" 2 col) as Hlen.
  split; [apply (concat_split "_" 2 col) |]. split; [exact Hlen |].
  rewrite Hlen. lia.
Qed.

End PyStrMore.

(** ** Labels *)

Lemma column_label_long (col : string) :
  (2 ≤ PyStr.occurs "_" col)%nat →
  ∃ a b c : string,
    col = a +:+ "_" +:+ b +:+ "_" +:+ c
    ∧ PyStr.split "_" 2 col = [a; b; c]
    ∧ column_label col = PyStr.strip c.
Proof.
  intros Hocc.
  pose proof (PyStrFacts.split_length "_" 2 col) as Hlen.
  pose proof (PyStrMore.concat_split "_" 2 col) as Hjoin.
  destruct (PyStr.split "_" 2 col) as [|a [|b [|c [|d parts]]]] eqn:E;
    cbn [length] in Hlen; [lia | lia | lia | | lia].
  exists a, b, c. split; [by rewrite <- Hjoin |]. split; [done |].
  unfold column_label. by rewrite E.
Qed.

(** X3: the label falls back to the column name exactly when the name has
  fewer than two underscores; with two or more the label is the stripped
  third segment, which is shorter than the name by at least the two
  underscores. *)
Theorem column_label_fallback (col : string) :
  (column_label col = col ↔ (PyStr.occurs "_" col < 2)%nat)
  ∧ ((2 ≤ PyStr.occurs "_" col)%nat →
     (String.length (column_label col) + 2 ≤ String.length col)%nat).
Proof.
  assert (Hlong : (2 ≤ PyStr.occurs "_" col)%nat →
                  (String.length (column_label col) + 2 ≤ String.length col)%nat).
  { intros Hocc. destruct (column_label_long col Hocc) as (a & b & c & Hcol & _ & ->).
    pose proof (PyStrMore.strip_length c) as Hc.
    rewrite Hcol. rewrite !PyStrMore.length_append. simpl. lia. }
  split; [| exact Hlong]. split.
  - intros Heq. destruct (le_lt_dec 2 (PyStr.occurs "_" col)) as [Hocc | Hocc]; [| done].
    specialize (Hlong Hocc). rewrite Heq in Hlong. lia.
  - apply column_label_short.
Qed.

Lemma labels_untouched (cols : list string) (acc : gmap string string) (col : string) :
  ¬ (col ∈ cols ∧ PyStr.startswith "P12_" col = true) →
  foldl (λ (variable_labels : gmap string string) (c : string),
           if PyStr.startswith "P12_" c
           then <[c := column_label c]> variable_labels
           else variable_labels) acc cols !! col
  = acc !! col.
Proof.
  revert acc. induction cols as [|c cols IH]; intros acc Hnot; simpl; [done |].
  rewrite IH.
  - destruct (PyStr.startswith "P12_" c) eqn:Ec; [| done].
    apply lookup_insert_ne. intros ->. apply Hnot. split; [by left | done].
  - intros [Hin Hp]. apply Hnot. split; [by right | done].
Qed.

Lemma prefixed_column_is_metric {Geometry : Type}
  (gdf : GeoDataFrame (Geometry := Geometry)) (col : string) :
  PyStr.startswith "P12_" col = true →
  col ∈ frame_columns gdf ↔ col ∈ metric_columns gdf.
Proof.
  intros Hp. unfold frame_columns. rewrite elem_of_app, elem_of_elements.
  split; [| by right]. intros [Hobj | Hm]; [| done].
  exfalso. unfold object_columns in Hobj.
  rewrite !elem_of_cons, elem_of_nil in Hobj.
  destruct Hobj as [-> | [-> | [-> | [-> | []]]]]; discriminate Hp.
Qed.

Section MoreProperties.

Context {Geometry GeoInterface : Type}.
Variable geo_interface : Geometry → GeoInterface.
Variable object_scale : list (pyval (Geometry := Geometry)) → exn + (num * num).
Variable colormap_call : LinearColormap → pyval (Geometry := Geometry) → exn + string.

Implicit Types (gdf : GeoDataFrame (Geometry := Geometry)).
Implicit Types (row : Row (Geometry := Geometry)).
Implicit Types (variable : string) (variable_labels : gmap string string).
Implicit Types (m : FoliumMap (Geometry := Geometry) (GeoInterface := GeoInterface)).
Implicit Types (layer : GeoJson (Geometry := Geometry) (GeoInterface := GeoInterface)).

Lemma extract_variable_labels_lookup gdf (labels : gmap string string) (col : string) :
  result_of extract_variable_labels gdf = inr labels →
  labels !! col
  = if decide (col ∈ metric_columns gdf ∧ PyStr.startswith "P12_" col = true)
    then Some (column_label col) else None.
Proof.
  intros Hrun.
  assert (labels
          = foldl (λ (variable_labels : gmap string string) (c : string),
                     if PyStr.startswith "P12_" c
                     then <[c := column_label c]> variable_labels
                     else variable_labels) ∅ (frame_columns gdf)) as ->
    by (by injection Hrun).
  clear Hrun. case_decide as Hc.
  - destruct Hc as [Hin Hp]. apply (labels_found (frame_columns gdf) ∅ col); [| done].
    by apply prefixed_column_is_metric.
  - rewrite (labels_untouched (frame_columns gdf) ∅ col); [done |].
    intros [Hin Hp]. apply Hc. split; [| done]. by apply prefixed_column_is_metric in Hin.
Qed.

(** X1: the label index has an entry for a name exactly when the name is a
  metric column of the table that starts with the prefix; the four object
  columns and names that are no column are never labelled. *)
Theorem extract_variable_labels_keys gdf :
  ∃ labels,
    result_of extract_variable_labels gdf = inr labels
    ∧ ∀ col : string,
        is_Some (labels !! col)
        ↔ col ∈ metric_columns gdf ∧ PyStr.startswith "P12_" col = true.
Proof.
  eexists. split; [reflexivity |]. intros col.
  rewrite (extract_variable_labels_lookup gdf _ col eq_refl). case_decide as Hc.
  - split; [done | by eexists].
  - split; [by intros [? ?] | done].
Qed.

(** ** Legend caption *)

Lemma create_colormap_caption gdf variable variable_labels (c : LinearColormap) :
  result_of (create_colormap object_scale variable variable_labels) gdf = inr c →
  caption c = "Demographic Metric: " +:+ default variable (variable_labels !! variable).
Proof.
  unfold result_of, create_colormap, bind, DataFrame_getitem, lift.
  repeat case_decide; cbn beta iota; repeat case_decide; cbn beta iota zeta;
    try done; unfold column_min, column_max.
  - destruct (num_eqb _ _); by intros [= <-].
  - destruct (object_scale _) as [e | domain]; [done |]. by intros [= <-].
Qed.

(** X4: with the labels read from the same table, the legend of a metric
  column is captioned with the prefix text followed by the code itself when
  the code does not start with the metric prefix or has fewer than two
  underscores, and by the stripped third segment when the code has three
  segments; a blank third segment leaves the caption without any label. *)
Theorem legend_caption gdf variable :
  variable ∈ metric_columns gdf →
  ∃ labels colormap,
    result_of extract_variable_labels gdf = inr labels
    ∧ result_of (create_colormap object_scale variable labels) gdf = inr colormap
    ∧ (PyStr.startswith "P12_" variable = false →
       caption colormap = "Demographic Metric: " +:+ variable)
    ∧ (PyStr.startswith "P12_" variable = true →
       ((PyStr.occurs "_" variable < 2)%nat →
        caption colormap = "Demographic Metric: " +:+ variable)
       ∧ ∀ a b c : string,
           variable = a +:+ "_" +:+ b +:+ "_" +:+ c →
           PyStr.occurs "_" a = 0%nat → PyStr.occurs "_" b = 0%nat →
           caption colormap = "Demographic Metric: " +:+ PyStr.strip c
           ∧ (PyStr.all_space c → caption colormap = "Demographic Metric: ")).
Proof.
  intros Hin.
  destruct (create_colormap_run object_scale gdf variable
              (foldl (λ (variable_labels : gmap string string) (c : string),
                        if PyStr.startswith "P12_" c
                        then <[c := column_label c]> variable_labels
                        else variable_labels) ∅ (frame_columns gdf)) Hin)
    as (colormap & Hc & _).
  eexists _, colormap. split; [reflexivity |].
  assert (Hres : result_of (create_colormap object_scale variable
                   (foldl (λ (variable_labels : gmap string string) (c : string),
                             if PyStr.startswith "P12_" c
                             then <[c := column_label c]> variable_labels
                             else variable_labels) ∅ (frame_columns gdf))) gdf
                 = inr colormap) by (unfold result_of; by rewrite Hc).
  split; [exact Hres |].
  rewrite (create_colormap_caption _ _ _ _ Hres).
  rewrite (extract_variable_labels_lookup gdf _ variable eq_refl).
  split.
  - intros Hp. rewrite decide_False; [done |]. intros [_ Hp']. congruence.
  - intros Hp. rewrite decide_True by done. simpl. split.
    + intros Hocc. by rewrite column_label_short.
    + intros a b c -> Ha Hb. rewrite (column_label_three a b c Ha Hb).
      split; [done |]. intros Hs. by rewrite PyStrMore.all_space_strip.
Qed.

(** ** The finished map *)

(** X6: the map [generate_map] returns opens on the fixed view, whatever the
  table holds; its first child is the tile layer the map is created with,
  its second the legend, its last the layer control; it has one legend
  only, and between legend and layer control stands one layer for each row
  with a geometry. *)
Theorem generate_map_children gdf variable variable_labels :
  variable ∈ metric_columns gdf →
  ∃ m colormap,
    result_of (generate_map geo_interface object_scale colormap_call variable variable_labels) gdf
    = inr m
    ∧ result_of (create_colormap object_scale variable variable_labels) gdf = inr colormap
    ∧ location m = (QArith_base.Qmake 378 10, QArith_base.Qmake (-96) 1)
    ∧ zoom_start m = 4
    ∧ children m !! 0%nat = Some (TileLayerChild "OpenStreetMap")
    ∧ children m !! 1%nat = Some (ColormapChild colormap)
    ∧ last (children m) = Some LayerControl
    ∧ legends m = [colormap]
    ∧ children m
      = (TileLayerChild "OpenStreetMap" :: ColormapChild colormap
         :: (GeoJsonChild <$> geojson_layers m) ++ [LayerControl])%list
    ∧ length (children m)
      = (3 + length (filter (λ row, has_geometry row) (rows gdf)))%nat.
Proof.
  intros Hin.
  destruct (generate_map_run geo_interface object_scale colormap_call gdf variable
              variable_labels Hin) as (c & Hc & Hm).
  eexists _, c. unfold result_of. rewrite Hm, Hc. cbn [fst].
  rewrite geojson_layers_children.
  split; [done |]. split; [done |]. split; [done |]. split; [done |].
  split; [done |]. split; [done |]. cbn [children].
  split; [by rewrite !last_cons, last_snoc |].
  split; [apply legends_children |].
  split; [done |].
  cbn [length]. rewrite length_app, length_fmap, layers_for_length. simpl. lia.
Qed.

(** X5: when the preset code is a column of the table, [main] shows the map
  that [generate_map] builds for the preset code with the labels of the
  table; its legend is captioned with the bare preset code, which has no
  label segment; and the table is left as it was. *)
Theorem main_map gdf :
  PRESET_VARIABLE ∈ frame_columns gdf →
  ∃ m colormap labels,
    result_of extract_variable_labels gdf = inr labels
    ∧ result_of (main geo_interface object_scale colormap_call) gdf = inr m
    ∧ result_of (generate_map geo_interface object_scale colormap_call PRESET_VARIABLE labels) gdf
      = inr m
    ∧ legends m = [colormap]
    ∧ caption colormap = "Demographic Metric: P12_027N"
    ∧ table_after (main geo_interface object_scale colormap_call) gdf = gdf.
Proof.
  intros Hin.
  assert (Hm : PRESET_VARIABLE ∈ metric_columns gdf)
    by by apply prefixed_column_is_metric in Hin.
  destruct (generate_map_run geo_interface object_scale colormap_call gdf PRESET_VARIABLE
              (foldl (λ (variable_labels : gmap string string) (c : string),
                        if PyStr.startswith "P12_" c
                        then <[c := column_label c]> variable_labels
                        else variable_labels) ∅ (frame_columns gdf)) Hm)
    as (c & Hc & Hrun).
  eexists _, c, _. split; [reflexivity |].
  assert (Hmain : result_of (main geo_interface object_scale colormap_call) gdf
                  = result_of (generate_map geo_interface object_scale colormap_call PRESET_VARIABLE
                      (foldl (λ (variable_labels : gmap string string) (c : string),
                                if PyStr.startswith "P12_" c
                                then <[c := column_label c]> variable_labels
                                else variable_labels) ∅ (frame_columns gdf))) gdf).
  { unfold result_of at 1. unfold main, extract_variable_labels, DataFrame_columns, ret.
    unfold bind. cbn beta iota. by rewrite bool_decide_eq_true_2 by done. }
  rewrite Hmain. unfold result_of. rewrite Hrun. cbn [fst].
  split; [done |]. split; [done |].
  split; [apply legends_children |].
  split; [| apply read_only_main].
  rewrite (create_colormap_caption gdf PRESET_VARIABLE _ c)
    by (unfold result_of; by rewrite Hc).
  rewrite (extract_variable_labels_lookup gdf _ PRESET_VARIABLE eq_refl).
  by rewrite decide_True by done.
Qed.

(** ** The domain of the legend and the colours of the layers *)

Lemma no_present_value gdf variable row :
  dropna (column_values variable gdf) = [] → row ∈ rows gdf →
  metrics row !! variable = None ∨ metrics row !! variable = Some NaN.
Proof.
  intros Hnil Hrow.
  destruct (metrics row !! variable) as [[|z]|] eqn:Hz; [by right | | by left].
  pose proof (present_value_in_column gdf variable row z Hrow Hz) as Hin.
  rewrite Hnil in Hin. by apply elem_of_nil in Hin.
Qed.

(** The domain of the scale when a row has a value and every value of the
  column lies below 2^53 in magnitude. *)
Lemma create_colormap_bounds gdf variable variable_labels :
  variable ∈ metric_columns gdf →
  (∃ row (z : Z), row ∈ rows gdf ∧ metrics row !! variable = Some (Num z)) →
  (∀ row (z : Z),
     row ∈ rows gdf → metrics row !! variable = Some (Num z) →
     - 2 ^ 53 < z - 1 ∧ z + 1 < 2 ^ 53) →
  ∃ colormap (lo hi : Z),
    create_colormap object_scale variable variable_labels gdf = (inr colormap, gdf)
    ∧ legend_domain colormap = (Num lo, Num hi)
    ∧ lo < hi
    ∧ ∀ x, x ∈ dropna (column_values variable gdf) → lo ≤ x ≤ hi.
Proof.
  intros Hin (row0 & z0 & Hrow0 & Hz0) Hsmall.
  destruct (create_colormap_run object_scale gdf variable variable_labels Hin)
    as (c & Hc & Hd).
  cbn zeta in Hd. unfold Series_min, Series_max in Hd.
  pose proof (present_value_in_column gdf variable row0 z0 Hrow0 Hz0) as Hne.
  assert (Hall : ∀ x, x ∈ dropna (column_values variable gdf) →
                      - 2 ^ 53 < x - 1 ∧ x + 1 < 2 ^ 53).
  { intros x Hx. apply column_value_present in Hx as (row & Hrow & Hx).
    by apply (Hsmall row). }
  destruct (dropna (column_values variable gdf)) as [|z zs];
    [by apply elem_of_nil in Hne |].
  destruct (foldl_min_spec zs z) as [Hmin_in Hmin].
  destruct (foldl_max_spec zs z) as [Hmax_in Hmax].
  pose proof (Hmin _ Hmax_in) as Hle. cbn [num_eqb] in Hd.
  pose proof (Hall _ Hmin_in) as Hlo. pose proof (Hall _ Hmax_in) as Hhi.
  destruct (Z.eqb_spec (foldl Z.min z zs) (foldl Z.max z zs)) as [Heq | Hneq].
  - exists c, (foldl Z.min z zs - 1), (foldl Z.max z zs + 1).
    split; [done |]. split.
    { rewrite Hd. unfold num_sub, num_add. by rewrite !np_result_exact by lia. }
    split; [lia |].
    intros x Hx. specialize (Hmin x Hx). specialize (Hmax x Hx). lia.
  - exists c, (foldl Z.min z zs), (foldl Z.max z zs).
    split; [done |]. split; [done |]. split; [lia |].
    intros x Hx. split; [by apply Hmin | by apply Hmax].
Qed.

(** X7: when a row holds a value and every value of the column lies below
  2^53 in magnitude (where a count is held exactly in either dtype and
  adding or subtracting 1 is exact), the scale has a domain of two numbers
  with the lower strictly below the upper, and the value of every row lies
  within it, whether or not the row has a geometry. *)
Theorem create_colormap_covers gdf variable variable_labels :
  variable ∈ metric_columns gdf →
  (∃ row (z : Z), row ∈ rows gdf ∧ metrics row !! variable = Some (Num z)) →
  (∀ row (z : Z),
     row ∈ rows gdf → metrics row !! variable = Some (Num z) →
     - 2 ^ 53 < z - 1 ∧ z + 1 < 2 ^ 53) →
  ∃ colormap (lo hi : Z),
    result_of (create_colormap object_scale variable variable_labels) gdf = inr colormap
    ∧ legend_domain colormap = (Num lo, Num hi)
    ∧ lo < hi
    ∧ ∀ row (z : Z),
        row ∈ rows gdf → metrics row !! variable = Some (Num z) → lo ≤ z ≤ hi.
Proof.
  intros Hin Hne Hsmall.
  destruct (create_colormap_bounds gdf variable variable_labels Hin Hne Hsmall)
    as (c & lo & hi & Hc & Hd & Hlt & Hb).
  exists c, lo, hi. unfold result_of. rewrite Hc.
  split; [done |]. split; [done |]. split; [done |].
  intros row z Hrow Hz. by apply Hb, (present_value_in_column gdf variable row).
Qed.

Lemma layer_of_row (c : LinearColormap) variable (rs : list Row) layer :
  layer ∈ omap (λ row, row_layer geo_interface colormap_call c variable row
                         <$> geometry row) rs →
  ∃ row geom,
    row ∈ rs ∧ geometry row = Some geom
    ∧ layer = row_layer geo_interface colormap_call c variable row geom.
Proof.
  intros Hl. apply list_elem_of_omap in Hl as (row & Hrow & Hlayer).
  destruct (geometry row) as [geom|] eqn:Hg; [| done].
  exists row, geom. by injection Hlayer as <-.
Qed.

Lemma row_layer_style (c : LinearColormap) variable row (geom : Geometry) :
  variable ∉ object_columns →
  layer_style (row_layer geo_interface colormap_call c variable row geom)
  = match metrics row !! variable with
    | Some (Num z) => styled (colormap_call c (PyFloat (Num z)))
    | _ => inr grey_style
    end.
Proof.
  intros Hv. unfold layer_style, row_layer, style_function.
  cbn [data properties layer_style_function].
  rewrite row_properties_metric by done.
  destruct (metrics row !! variable) as [[|z]|]; done.
Qed.

(** X8: when the column holds no present value (an empty table, or a
  missing value in every row) the domain is not widened: it is (NaN, NaN);
  the map is built all the same, and every layer has the grey style. *)
Theorem generate_map_all_missing gdf variable variable_labels :
  variable ∈ metric_columns gdf →
  variable ∉ object_columns →
  dropna (column_values variable gdf) = [] →
  ∃ m colormap,
    result_of (generate_map geo_interface object_scale colormap_call variable variable_labels) gdf
    = inr m
    ∧ legends m = [colormap]
    ∧ legend_domain colormap = (NaN, NaN)
    ∧ length (geojson_layers m) = length (filter (λ row, has_geometry row) (rows gdf))
    ∧ ∀ layer, layer ∈ geojson_layers m → layer_style layer = inr grey_style.
Proof.
  intros Hin Hv Hnil.
  destruct (generate_map_run geo_interface object_scale colormap_call gdf variable variable_labels Hin)
    as (c & Hc & Hm).
  destruct (create_colormap_run object_scale gdf variable variable_labels Hin) as (c' & Hc' & Hd).
  rewrite Hc in Hc'. injection Hc' as <-.
  cbn zeta in Hd. unfold Series_min, Series_max in Hd. rewrite Hnil in Hd.
  eexists _, c. unfold result_of. rewrite Hm. cbn [fst].
  rewrite geojson_layers_children, legends_children.
  split; [done |]. split; [done |]. split; [done |].
  split; [apply layers_for_length |].
  intros layer Hl. apply layer_of_row in Hl as (row & geom & Hrow & _ & ->).
  rewrite row_layer_style by done.
  by destruct (no_present_value gdf variable row Hnil Hrow) as [-> | ->].
Qed.

(** X9: legend and colours go together: every layer of the map is styled
  from the one scale that is the map's legend; a row with a value gets the
  colour that scale returns for it and a row without a value gets the grey
  style; and when every value of the column lies below 2^53 in magnitude,
  the value the scale is asked with lies inside the legend's domain, whose
  lower end is strictly below its upper end. *)
Theorem generate_map_styles gdf variable variable_labels :
  variable ∈ metric_columns gdf →
  variable ∉ object_columns →
  ∃ m colormap,
    result_of (generate_map geo_interface object_scale colormap_call variable variable_labels) gdf
    = inr m
    ∧ legends m = [colormap]
    ∧ ∀ layer,
        layer ∈ geojson_layers m →
        ∃ row,
          row ∈ rows gdf
          ∧ tooltip layer = NAME row
          ∧ layer_style layer
            = match metrics row !! variable with
              | Some (Num z) => styled (colormap_call colormap (PyFloat (Num z)))
              | _ => inr grey_style
              end
          ∧ ((∀ row' (z' : Z),
                row' ∈ rows gdf → metrics row' !! variable = Some (Num z') →
                - 2 ^ 53 < z' - 1 ∧ z' + 1 < 2 ^ 53) →
             ∀ z : Z,
               metrics row !! variable = Some (Num z) →
               ∃ lo hi : Z,
                 legend_domain colormap = (Num lo, Num hi) ∧ lo ≤ z ≤ hi ∧ lo < hi).
Proof.
  intros Hin Hv.
  destruct (generate_map_run geo_interface object_scale colormap_call gdf variable
              variable_labels Hin) as (c & Hc & Hm).
  eexists _, c. unfold result_of. rewrite Hm. cbn [fst].
  rewrite geojson_layers_children, legends_children.
  split; [done |]. split; [done |].
  intros layer Hl. apply layer_of_row in Hl as (row & geom & Hrow & _ & ->).
  exists row. split; [done |]. split; [done |].
  split; [by apply row_layer_style |].
  intros Hsmall z Hz.
  assert (Hne : ∃ row (z : Z), row ∈ rows gdf ∧ metrics row !! variable = Some (Num z))
    by by exists row, z.
  destruct (create_colormap_bounds gdf variable variable_labels Hin Hne Hsmall)
    as (c' & lo & hi & Hc' & Hd & Hlt & Hb).
  rewrite Hc in Hc'. injection Hc' as <-.
  exists lo, hi. split; [done |]. split; [| done].
  by apply Hb, (present_value_in_column gdf variable row).
Qed.

(** ** Rows without geometry *)

Lemma create_colormap_same_column gdf gdf' variable variable_labels :
  variable ∈ metric_columns gdf →
  metric_columns gdf = metric_columns gdf' →
  int64_columns gdf = int64_columns gdf' →
  column_values variable gdf = column_values variable gdf' →
  result_of (create_colormap object_scale variable variable_labels) gdf
  = result_of (create_colormap object_scale variable variable_labels) gdf'.
Proof.
  intros Hin Hcols Hints Hvals.
  assert (Hin' : variable ∈ metric_columns gdf') by by rewrite <- Hcols.
  destruct (create_colormap_run object_scale gdf variable variable_labels Hin)
    as (c & Hc & Hd).
  destruct (create_colormap_run object_scale gdf' variable variable_labels Hin')
    as (c' & Hc' & Hd').
  pose proof (create_colormap_caption gdf variable variable_labels c) as Hcap.
  pose proof (create_colormap_caption gdf' variable variable_labels c') as Hcap'.
  unfold result_of in *. rewrite Hc in Hcap |- *. rewrite Hc' in Hcap' |- *.
  cbn [fst] in *. cbn zeta in Hd, Hd'. unfold column_dtype in Hd, Hd'.
  rewrite Hvals, Hints in Hd. rewrite <- Hd' in Hd.
  specialize (Hcap eq_refl). specialize (Hcap' eq_refl). rewrite <- Hcap' in Hcap.
  destruct c, c'. unfold legend_domain in Hd. simpl in *. congruence.
Qed.

Lemma column_values_hide (p : Row → bool) gdf variable :
  column_values variable (hide p gdf) = column_values variable gdf.
Proof.
  unfold column_values, hide. cbn [rows]. rewrite <- list_fmap_compose.
  apply list_fmap_ext. intros i row _. simpl. by destruct (p row).
Qed.

Lemma filter_hide (p : Row → bool) (rs : list Row) :
  NAME <$> filter (λ row, has_geometry row)
             ((λ row, if p row then without_geometry row else row) <$> rs)
  = NAME <$> filter (λ row, has_geometry row ∧ p row = false) rs.
Proof.
  induction rs as [|row rs IH]; [done |].
  rewrite fmap_cons, !filter_cons. destruct (p row) eqn:Hp.
  - rewrite decide_False by (unfold has_geometry; simpl; tauto).
    rewrite decide_False by (intros [_ H]; discriminate H). exact IH.
  - destruct (decide (has_geometry row)) as [Hg | Hg].
    + rewrite decide_True by done. rewrite !fmap_cons. f_equal. exact IH.
    + rewrite decide_False by tauto. exact IH.
Qed.

(** X10: a row without geometry adds no layer but still counts for the
  legend: taking the geometry away from any rows of a table leaves the
  legend of the map as it was, and leaves the layers of the other rows with
  a geometry, in their order. *)
Theorem hidden_rows_keep_legend gdf variable variable_labels (p : Row → bool) :
  variable ∈ metric_columns gdf →
  ∃ m m' colormap,
    result_of (generate_map geo_interface object_scale colormap_call variable variable_labels) gdf
    = inr m
    ∧ result_of (generate_map geo_interface object_scale colormap_call variable variable_labels)
        (hide p gdf)
      = inr m'
    ∧ legends m = [colormap]
    ∧ legends m' = [colormap]
    ∧ tooltip <$> geojson_layers m'
      = NAME <$> filter (λ row, has_geometry row ∧ p row = false) (rows gdf).
Proof.
  intros Hin.
  destruct (generate_map_run geo_interface object_scale colormap_call gdf variable variable_labels Hin)
    as (c & Hc & Hm).
  destruct (generate_map_run geo_interface object_scale colormap_call (hide p gdf) variable
              variable_labels Hin) as (c' & Hc' & Hm').
  assert (c' = c) as ->.
  { pose proof (create_colormap_same_column (hide p gdf) gdf variable variable_labels
                  Hin eq_refl eq_refl (column_values_hide p gdf variable)) as Heq.
    unfold result_of in Heq. rewrite Hc, Hc' in Heq. by injection Heq. }
  eexists _, _, c. unfold result_of. rewrite Hm, Hm'. cbn [fst].
  rewrite !legends_children, geojson_layers_children.
  split; [done |]. split; [done |]. split; [done |]. split; [done |].
  rewrite layers_for_tooltip. apply filter_hide.
Qed.

(** ** Feature properties *)


End MoreProperties.

(** ** Loading and showing *)

Section LoadingProperties.

Context {Geometry GeoInterface : Type}.
Variable Pickled : Type.
Variable read_pickle : string → load_exn + Pickled.
Variable to_GeoDataFrame : Pickled → load_exn + GeoDataFrame (Geometry := Geometry).
Variable geo_interface : Geometry → GeoInterface.
Variable object_scale : list (pyval (Geometry := Geometry)) → exn + (num * num).
Variable colormap_call : LinearColormap → pyval (Geometry := Geometry) → exn + string.

Local Abbreviation the_run :=
  (run_main Pickled read_pickle to_GeoDataFrame geo_interface object_scale colormap_call).

Lemma main_stops (gdf : GeoDataFrame (Geometry := Geometry)) :
  PRESET_VARIABLE ∉ frame_columns gdf →
  result_of (main geo_interface object_scale colormap_call) gdf
  = inl (StopException "Preset variable 'P12_027N' not found in the data.").
Proof.
  intros Hcol. unfold result_of, main, extract_variable_labels, DataFrame_columns, ret.
  unfold bind. cbn beta iota. by rewrite bool_decide_eq_false_2.
Qed.

(** X12: how the script stops before any map is built.  A
  [FileNotFoundError] from reading the pickle or from building the
  GeoDataFrame stops it with the message that names the default path; any
  other exception of these two calls stops it with the message that
  carries the exception's text; and a loaded table without the preset
  column stops it with the message about the preset variable. *)
Theorem run_main_stops :
  (∀ text,
     read_pickle default_file_path = inl (FileNotFoundError text)
     ∨ (∃ raw, read_pickle default_file_path = inr raw
               ∧ to_GeoDataFrame raw = inl (FileNotFoundError text)) →
     the_run
     = inl (StopException "Data file not found at path: merged_gdf_specific.pkl"))
  ∧ (∀ text,
       read_pickle default_file_path = inl (OtherException text)
       ∨ (∃ raw, read_pickle default_file_path = inr raw
                 ∧ to_GeoDataFrame raw = inl (OtherException text)) →
       the_run = inl (StopException ("Failed to load data: " +:+ text)))
  ∧ (∀ raw gdf,
       read_pickle default_file_path = inr raw →
       to_GeoDataFrame raw = inr gdf →
       PRESET_VARIABLE ∉ frame_columns gdf →
       the_run
       = inl (StopException "Preset variable 'P12_027N' not found in the data.")).
Proof.
  unfold run_main, load_data.
  split; [| split].
  - intros text [-> | (raw & -> & ->)]; done.
  - intros text [-> | (raw & -> & ->)]; done.
  - intros raw gdf -> -> Hcol. by apply main_stops.
Qed.

End LoadingProperties.

(** ** The further properties on the sample tables *)

Lemma legend_caption_witness :
  SampleEdge.blank ∈ metric_columns SampleEdge.blank_table
  ∧ ∃ labels colormap,
      result_of extract_variable_labels SampleEdge.blank_table = inr labels
      ∧ result_of (create_colormap Sample.objects SampleEdge.blank labels) SampleEdge.blank_table
        = inr colormap
      ∧ (PyStr.startswith "P12_" SampleEdge.blank = false →
         caption colormap = "Demographic Metric: " +:+ SampleEdge.blank)
      ∧ (PyStr.startswith "P12_" SampleEdge.blank = true →
         ((PyStr.occurs "_" SampleEdge.blank < 2)%nat →
          caption colormap = "Demographic Metric: " +:+ SampleEdge.blank)
         ∧ ∀ a b c : string,
             SampleEdge.blank = a +:+ "_" +:+ b +:+ "_" +:+ c →
             PyStr.occurs "_" a = 0%nat → PyStr.occurs "_" b = 0%nat →
             caption colormap = "Demographic Metric: " +:+ PyStr.strip c
             ∧ (PyStr.all_space c → caption colormap = "Demographic Metric: ")).
Proof.
  assert (H : SampleEdge.blank ∈ metric_columns SampleEdge.blank_table) by compute_done.
  split; [exact H |].
  exact (legend_caption Sample.objects SampleEdge.blank_table SampleEdge.blank H).
Defined.

Lemma main_map_witness :
  PRESET_VARIABLE ∈ frame_columns Sample.abc
  ∧ ∃ m colormap labels,
      result_of extract_variable_labels Sample.abc = inr labels
      ∧ result_of (main Sample.geo Sample.objects Sample.colour_of) Sample.abc = inr m
      ∧ result_of (generate_map Sample.geo Sample.objects Sample.colour_of PRESET_VARIABLE labels)
          Sample.abc
        = inr m
      ∧ legends m = [colormap]
      ∧ caption colormap = "Demographic Metric: P12_027N"
      ∧ table_after (main Sample.geo Sample.objects Sample.colour_of) Sample.abc = Sample.abc.
Proof.
  assert (H : PRESET_VARIABLE ∈ frame_columns Sample.abc) by compute_done.
  split; [exact H |].
  exact (main_map Sample.geo Sample.objects Sample.colour_of Sample.abc H).
Defined.

Lemma generate_map_children_witness :
  Sample.code ∈ metric_columns Sample.with_hidden
  ∧ ∃ m colormap,
      result_of (generate_map Sample.geo Sample.objects Sample.colour_of Sample.code ∅)
        Sample.with_hidden
      = inr m
      ∧ result_of (create_colormap Sample.objects Sample.code ∅) Sample.with_hidden
        = inr colormap
      ∧ location m = (QArith_base.Qmake 378 10, QArith_base.Qmake (-96) 1)
      ∧ zoom_start m = 4
      ∧ children m !! 0%nat = Some (TileLayerChild "OpenStreetMap")
      ∧ children m !! 1%nat = Some (ColormapChild colormap)
      ∧ last (children m) = Some LayerControl
      ∧ legends m = [colormap]
      ∧ children m
        = (TileLayerChild "OpenStreetMap" :: ColormapChild colormap
           :: (GeoJsonChild <$> geojson_layers m) ++ [LayerControl])%list
      ∧ length (children m)
        = (3 + length (filter (λ row, has_geometry row) (rows Sample.with_hidden)))%nat.
Proof.
  assert (H : Sample.code ∈ metric_columns Sample.with_hidden) by compute_done.
  split; [exact H |].
  exact (generate_map_children Sample.geo Sample.objects Sample.colour_of Sample.with_hidden
           Sample.code ∅ H).
Defined.

Lemma create_colormap_covers_witness :
  Sample.code ∈ metric_columns Sample.with_missing
  ∧ (∃ row (z : Z),
       row ∈ rows Sample.with_missing ∧ metrics row !! Sample.code = Some (Num z))
  ∧ (∀ row (z : Z),
       row ∈ rows Sample.with_missing → metrics row !! Sample.code = Some (Num z) →
       - 2 ^ 53 < z - 1 ∧ z + 1 < 2 ^ 53)
  ∧ ∃ colormap (lo hi : Z),
      result_of (create_colormap Sample.objects Sample.code ∅) Sample.with_missing
      = inr colormap
      ∧ legend_domain colormap = (Num lo, Num hi)
      ∧ lo < hi
      ∧ ∀ row (z : Z),
          row ∈ rows Sample.with_missing →
          metrics row !! Sample.code = Some (Num z) → lo ≤ z ≤ hi.
Proof.
  assert (H : Sample.code ∈ metric_columns Sample.with_missing) by compute_done.
  assert (Hne : ∃ row (z : Z),
             row ∈ rows Sample.with_missing ∧ metrics row !! Sample.code = Some (Num z)).
  { eexists _, 10. split; [apply list_elem_of_here | reflexivity]. }
  assert (Hsmall : ∀ row (z : Z),
             row ∈ rows Sample.with_missing → metrics row !! Sample.code = Some (Num z) →
             - 2 ^ 53 < z - 1 ∧ z + 1 < 2 ^ 53).
  { intros row z Hrow Hz. simpl in Hrow.
    apply elem_of_cons in Hrow as [-> | Hrow];
      [| apply elem_of_cons in Hrow as [-> | Hrow];
         [| apply list_elem_of_singleton in Hrow as ->]];
      vm_compute in Hz; try discriminate Hz; injection Hz as <-; lia. }
  split; [exact H |]. split; [exact Hne |]. split; [exact Hsmall |].
  exact (create_colormap_covers Sample.objects Sample.with_missing Sample.code ∅
           H Hne Hsmall).
Defined.

Lemma generate_map_all_missing_witness :
  Sample.code ∈ metric_columns SampleEdge.all_missing
  ∧ (Sample.code ∉ object_columns)
  ∧ dropna (column_values Sample.code SampleEdge.all_missing) = []
  ∧ ∃ m colormap,
      result_of (generate_map Sample.geo Sample.objects Sample.colour_of Sample.code ∅)
        SampleEdge.all_missing
      = inr m
      ∧ legends m = [colormap]
      ∧ legend_domain colormap = (NaN, NaN)
      ∧ length (geojson_layers m)
        = length (filter (λ row, has_geometry row) (rows SampleEdge.all_missing))
      ∧ ∀ layer, layer ∈ geojson_layers m → layer_style layer = inr grey_style.
Proof.
  assert (H : Sample.code ∈ metric_columns SampleEdge.all_missing) by compute_done.
  assert (Hv : Sample.code ∉ object_columns) by compute_done.
  assert (Hnil : dropna (column_values Sample.code SampleEdge.all_missing) = [])
    by reflexivity.
  split; [exact H |]. split; [exact Hv |]. split; [exact Hnil |].
  exact (generate_map_all_missing Sample.geo Sample.objects Sample.colour_of SampleEdge.all_missing
           Sample.code ∅ H Hv Hnil).
Defined.

Lemma generate_map_styles_witness :
  Sample.code ∈ metric_columns Sample.abc
  ∧ (Sample.code ∉ object_columns)
  ∧ ∃ m colormap,
      result_of (generate_map Sample.geo Sample.objects Sample.colour_of Sample.code ∅) Sample.abc
      = inr m
      ∧ legends m = [colormap]
      ∧ ∀ layer,
          layer ∈ geojson_layers m →
          ∃ row,
            row ∈ rows Sample.abc
            ∧ tooltip layer = NAME row
            ∧ layer_style layer
              = match metrics row !! Sample.code with
                | Some (Num z) => styled (Sample.colour_of colormap (PyFloat (Num z)))
                | _ => inr grey_style
                end
            ∧ ((∀ row' (z' : Z),
                  row' ∈ rows Sample.abc → metrics row' !! Sample.code = Some (Num z') →
                  - 2 ^ 53 < z' - 1 ∧ z' + 1 < 2 ^ 53) →
               ∀ z : Z,
                 metrics row !! Sample.code = Some (Num z) →
                 ∃ lo hi : Z,
                   legend_domain colormap = (Num lo, Num hi) ∧ lo ≤ z ≤ hi ∧ lo < hi).
Proof.
  assert (H : Sample.code ∈ metric_columns Sample.abc) by compute_done.
  assert (Hv : Sample.code ∉ object_columns) by compute_done.
  split; [exact H |]. split; [exact Hv |].
  exact (generate_map_styles Sample.geo Sample.objects Sample.colour_of Sample.abc
           Sample.code ∅ H Hv).
Defined.

Lemma hidden_rows_keep_legend_witness :
  Sample.code ∈ metric_columns Sample.abc
  ∧ ∃ m m' colormap,
      result_of (generate_map Sample.geo Sample.objects Sample.colour_of Sample.code ∅) Sample.abc
      = inr m
      ∧ result_of (generate_map Sample.geo Sample.objects Sample.colour_of Sample.code ∅)
          (hide SampleEdge.hidden_B Sample.abc)
        = inr m'
      ∧ legends m = [colormap]
      ∧ legends m' = [colormap]
      ∧ tooltip <$> geojson_layers m'
        = NAME <$> filter (λ row, has_geometry row ∧ SampleEdge.hidden_B row = false)
                     (rows Sample.abc).
Proof.
  assert (H : Sample.code ∈ metric_columns Sample.abc) by compute_done.
  split; [exact H |].
  exact (hidden_rows_keep_legend Sample.geo Sample.objects Sample.colour_of Sample.abc Sample.code ∅
           SampleEdge.hidden_B H).
Defined.


(** The column with a blank third segment: an empty label, and a caption
  that ends after the prefix text. *)
Example blank_caption :
  ∃ labels colormap,
    result_of extract_variable_labels SampleEdge.blank_table = inr labels
    ∧ labels !! SampleEdge.blank = Some ""
    ∧ result_of (create_colormap Sample.objects SampleEdge.blank labels) SampleEdge.blank_table
      = inr colormap
    ∧ caption colormap = "Demographic Metric: ".
Proof. eexists _, _. split; [reflexivity |]. split; [by vm_compute |]. by vm_compute. Qed.

(** The script on a file system that holds the default pickle, and on one
  that holds nothing. *)
Example run_main_shows :
  ∃ m,
    run_main _ SampleEdge.read SampleEdge.as_geo Sample.geo Sample.objects Sample.colour_of
    = inr m
    ∧ tooltip <$> geojson_layers m = ["A"; "B"; "C"].
Proof. eexists. split; [reflexivity |]. by vm_compute. Qed.

Example run_main_no_file :
  run_main _ (λ path, inl (FileNotFoundError path)) SampleEdge.as_geo
    Sample.geo Sample.objects Sample.colour_of
  = inl (StopException "Data file not found at path: merged_gdf_specific.pkl").
Proof. reflexivity. Qed.
